(** * njunmt/utils/model_builder.py

    A shallow embedding of the model-construction layer of NJUNMT-tf:
    the validated result record [EstimatorSpec], the scope-name sniffer
    [_inspect_varname_prefix], and the two entry points [model_fn] and
    [model_fn_ensemble].

    The Python is dynamically typed; values are embedded in a small
    universe [pyobj].  Exceptions are values of [exn] and a raising
    computation returns [inl e].  Code that touches the TensorFlow
    default graph (named collections, declared variables) runs in a
    state-and-exception monad over [Graph]; as in Python, what was
    written to the graph before an exception stays written.

    The collaborators the module only calls (model classes, [optimize],
    [build_hooks], [build_eval_metrics], checkpoint readers,
    [ModelConfigs.load], [EnsembleModel]) are the fields of a record
    [Collaborators]: total functions from their arguments to a value or an
    exception.  Their own effects on the graph are outside this
    development: [Graph] records the [tf.add_to_collection] calls and the
    variable declarations of this module itself.  The bookkeeping of
    [tf.get_variable] in the collections "variables" and
    "trainable_variables" is not tracked, so nothing below speaks of the
    collections after an ensemble load.  Both entry points are taken to be
    called from the root variable scope.  Logging ([tf.logging.info]) is
    not modelled. *)

From Stdlib Require Import String Ascii List Arith Lia Bool.
From Stdlib Require Import Decimal DecimalString DecimalNat.
From stdpp Require Import base option gmap strings list.
Import ListNotations.

(** ** Python values *)

(** [PyObj] is an opaque object with default truthiness that is neither
    iterable nor subscriptable and is not a hook (a tensor, an op, a numpy
    array, a vocabulary ...); [PyHook] is an instance of (a subclass of)
    [tf.train.SessionRunHook]. *)
#[warnings="-register-all"]
Inductive pyobj : Type :=
| PyNone
| PyStr (s : string)
| PyObj (id : nat)
| PyHook (id : nat)
| PyTuple (xs : list pyobj)
| PyList (xs : list pyobj)
| PyDict (kv : list (string * pyobj)).

Inductive exn : Type :=
| ValueError (msg : string)
| TypeError (msg : string) (given : pyobj)
| AssertionError (msg : string)
| IndexError (msg : string)
| KeyError (key : string)
| AttributeError (msg : string)
| ExternalError (msg : string).

(** A computation that returns a value or raises. *)
Definition result (A : Type) : Type := exn + A.

#[global] Instance result_ret : MRet result := fun A a => inr a.
#[global] Instance result_bind : MBind result := fun A B k c =>
  match c with
  | inl e => inl e
  | inr a => k a
  end.

Definition raise {A} (e : exn) : result A := inl e.

(** [x is None] *)
Definition is_None (x : pyobj) : bool :=
  match x with
  | PyNone => true
  | _ => false
  end.

(** [bool(x)] *)
Definition py_truthy (x : pyobj) : bool :=
  match x with
  | PyNone => false
  | PyStr s => negb (String.eqb s "")
  | PyObj _ | PyHook _ => true
  | PyTuple xs | PyList xs => negb (Nat.eqb (length xs) 0)
  | PyDict kv => negb (Nat.eqb (length kv) 0)
  end.

(** [x or y] *)
Definition py_or (x y : pyobj) : pyobj :=
  if py_truthy x then x else y.

(** The one-character strings of [s], as iterating a Python string yields. *)
Fixpoint chars_of (s : string) : list pyobj :=
  match s with
  | EmptyString => []
  | String c s' => PyStr (String c EmptyString) :: chars_of s'
  end.

(** The elements [tuple(x)] collects, or the [TypeError] of a non-iterable. *)
Definition py_iter (x : pyobj) : result (list pyobj) :=
  match x with
  | PyTuple xs | PyList xs => mret xs
  | PyDict kv => mret (map (fun p => PyStr (fst p)) kv)
  | PyStr s => mret (chars_of s)
  | PyNone | PyObj _ | PyHook _ => raise (TypeError "object is not iterable" x)
  end.

(** [tuple(x)] *)
Definition py_tuple (x : pyobj) : result pyobj :=
  xs ← py_iter x; mret (PyTuple xs).

(** [isinstance(x, tf.train.SessionRunHook)] *)
Definition isinstance_SessionRunHook (x : pyobj) : bool :=
  match x with
  | PyHook _ => true
  | _ => false
  end.

(** [x[0]] *)
Definition py_getitem0 (x : pyobj) : result pyobj :=
  match x with
  | PyTuple (v :: _) | PyList (v :: _) => mret v
  | PyTuple [] | PyList [] => raise (IndexError "index out of range")
  | PyStr (String c _) => mret (PyStr (String c EmptyString))
  | PyStr EmptyString => raise (IndexError "string index out of range")
  | PyDict _ => raise (KeyError "0")
  | PyNone | PyObj _ | PyHook _ =>
      raise (TypeError "object is not subscriptable" x)
  end.

Fixpoint assoc (k : string) (kv : list (string * pyobj)) : option pyobj :=
  match kv with
  | [] => None
  | (k', v) :: kv' => if String.eqb k k' then Some v else assoc k kv'
  end.

(** [d[k]] for a string key [k].  A dict literal with a repeated key keeps
    the last binding; [PyDict] lists bindings with the live one first. *)
Definition py_getitem (d : pyobj) (k : string) : result pyobj :=
  match d with
  | PyDict kv =>
      match assoc k kv with
      | Some v => mret v
      | None => raise (KeyError k)
      end
  | _ => raise (TypeError "indices must be integers" d)
  end.

(** ** [tf.contrib.learn.ModeKeys] *)

Module ModeKeys.
Definition TRAIN : string := "train".
Definition EVAL : string := "eval".
Definition INFER : string := "infer".
End ModeKeys.

(** ** [EstimatorSpec] *)

(** The namedtuple declared at line 30: five fields, in this order. *)
Record EstimatorSpec : Type := mkEstimatorSpec {
  predictions : pyobj;
  loss : pyobj;
  train_op : pyobj;
  training_chief_hooks : pyobj;
  training_hooks : pyobj
}.

(** The message of line 85, before [format] fills in the hook. *)
Definition hooks_TypeError_msg : string :=
  "All hooks must be SessionRunHook instances, given: {}".

(** The loop of lines 82-86 over [training_hooks + training_chief_hooks]. *)
Fixpoint check_hooks (hooks : list pyobj) : result unit :=
  match hooks with
  | [] => mret tt
  | hook :: rest =>
      if negb (isinstance_SessionRunHook hook) then
        raise (TypeError hooks_TypeError_msg hook)
      else check_hooks rest
  end.

(** The elements of a value that [py_tuple] produced. *)
Definition tuple_items (t : pyobj) : list pyobj :=
  match t with
  | PyTuple xs => xs
  | _ => []
  end.

(** [EstimatorSpec.__new__(cls, mode, predictions, loss, train_op,
    training_chief_hooks, training_hooks)]; an omitted keyword argument is
    its default [PyNone]. *)
Definition EstimatorSpec_new (mode : string)
    (predictions loss train_op training_chief_hooks training_hooks : pyobj)
  : result EstimatorSpec :=
  if is_None predictions && String.eqb mode ModeKeys.INFER then
    raise (ValueError "Missing predictions")
  else if is_None loss
          && (String.eqb mode ModeKeys.TRAIN || String.eqb mode ModeKeys.EVAL)
  then raise (ValueError "Missing loss.")
  else if is_None train_op && String.eqb mode ModeKeys.TRAIN then
    raise (ValueError "Missing train_op.")
  else
    training_chief_hooks ← py_tuple (py_or training_chief_hooks (PyList []));
    training_hooks ← py_tuple (py_or training_hooks (PyList []));
    check_hooks (tuple_items training_hooks ++ tuple_items training_chief_hooks) ;;
    mret {| predictions := predictions;
           loss := loss;
           train_op := train_op;
           training_chief_hooks := training_chief_hooks;
           training_hooks := training_hooks |}.

(** ** [_inspect_varname_prefix] *)

(** [keywords in var_name] *)
Definition py_in (keywords var_name : string) : bool :=
  match String.index 0 keywords var_name with
  | Some _ => true
  | None => false
  end.

(** [var_name[:var_name.index(keywords)]]; [str.index] is only called
    after the [in] test succeeded, so its [ValueError] branch is dead. *)
Definition prefix_before (keywords var_name : string) : string :=
  match String.index 0 keywords var_name with
  | Some i => substring 0 i var_name
  | None => var_name
  end.

(** Python's [None] is [None]; a returned string is [Some]. *)
Definition _inspect_varname_prefix (var_name : string) : option string :=
  let keywords := "/input_symbol_modality" in
  if py_in keywords var_name then Some (prefix_before keywords var_name)
  else
    let keywords := "/symbol_modality_" in
    if py_in keywords var_name then Some (prefix_before keywords var_name)
    else None.

(** ** The default graph *)

(** What this module reads and writes of the process-wide default graph:
    the named collections as [tf.add_to_collection] fills them (it appends
    to the list under a name) and the variables declared so far, by full
    name. *)
Record Graph : Type := mkGraph {
  collections : gmap string (list pyobj);
  variables : gmap string (pyobj * pyobj)
}.

Definition M (A : Type) : Type := Graph -> result A * Graph.

#[global] Instance M_ret : MRet M := fun A a g => (inr a, g).
#[global] Instance M_bind : MBind M := fun A B k c g =>
  match c g with
  | (inl e, g') => (inl e, g')
  | (inr a, g') => k a g'
  end.

(** A computation without graph effects, run inside [M]. *)
Definition liftR {A} (c : result A) : M A := fun g => (c, g).

Definition get_collection (name : string) (g : Graph) : list pyobj :=
  default [] (collections g !! name).

(** [tf.add_to_collection(name, value)] *)
Definition add_to_collection (name : string) (value : pyobj) : M unit :=
  fun g =>
    (inr tt,
     {| collections := <[name := get_collection name g ++ [value]]> (collections g);
        variables := variables g |}).

(** The full name of a variable [name] declared inside
    [tf.variable_scope(scope)] entered from the root scope. *)
Definition scoped_name (scope name : string) : string :=
  if String.eqb scope "" then name else scope +:+ "/" +:+ name.

(** [with tf.variable_scope(scope): tf.get_variable(name=name, shape=shape,
    dtype=tf.float32, initializer=tf.constant_initializer(value))], with the
    scope's default [reuse]: declaring a name twice is an error.  Of its
    effects, the declaration is recorded; its entries in the collections
    "variables" and "trainable_variables" are not. *)
Definition get_variable (scope name : string) (shape value : pyobj) : M unit :=
  fun g =>
    match variables g !! scoped_name scope name with
    | Some _ =>
        (inl (ValueError "Variable already exists, disallowed."), g)
    | None =>
        (inr tt,
         {| collections := collections g;
            variables := <[scoped_name scope name := (shape, value)]> (variables g) |})
    end.

(** [str(index)] for the non-negative [index] of [enumerate]. *)
Definition py_str (index : nat) : string :=
  NilEmpty.string_of_uint (Nat.to_uint index).

(** [s.split(".")] *)
Fixpoint split_dot (s : string) : list string :=
  match s with
  | EmptyString => [EmptyString]
  | String c s' =>
      if Ascii.eqb c "." then EmptyString :: split_dot s'
      else match split_dot s' with
           | [] => [String c EmptyString]
           | w :: ws => String c w :: ws
           end
  end.

(** [x.split(".")[-1]] *)
Definition split_dot_last (x : pyobj) : result pyobj :=
  match x with
  | PyStr s => mret (PyStr (List.last (split_dot s) EmptyString))
  | _ => raise (AttributeError "object has no attribute 'split'")
  end.

(** [hooks.extend]: the attribute exists on lists only. *)
Definition py_extend_attr (hooks : pyobj) : result (list pyobj) :=
  match hooks with
  | PyList xs => mret xs
  | _ => raise (AttributeError "object has no attribute 'extend'")
  end.

(** [assert cond, msg] *)
Definition py_assert (cond : bool) (msg : string) : result unit :=
  if cond then mret tt else raise (AssertionError msg).

(** ** Constants and collaborators that live outside this file *)

(** [njunmt.utils.global_names.GlobalNames]: the four constants used here. *)
Record GlobalNamesT : Type := mkGlobalNames {
  DISPLAY_KEY_COLLECTION_NAME : string;
  DISPLAY_VALUE_COLLECTION_NAME : string;
  TRAIN_LOSS_KEY_NAME : string;
  ENSEMBLE_VARNAME_PREFIX : string
}.

Record Dataset : Type := mkDataset {
  vocab_source : pyobj;
  vocab_target : pyobj;
  input_fields : pyobj
}.

Record Collaborators : Type := mkCollaborators {
  (** [eval(model)(params=, mode=, vocab_source=, vocab_target=, name=,
      verbose=)]: the resolution of the class and its call, taken together.
      The callers look ["model_params"] up before it; in Python the lookup
      falls between [eval] and the call, which shows only in which error
      is reported when both the lookup and [eval] fail. *)
  new_model : pyobj -> pyobj -> string -> pyobj -> pyobj -> pyobj -> bool ->
              result pyobj;
  (** [with tf.variable_scope("", reuse=reuse): model.build(input_fields)] *)
  model_build : pyobj -> pyobj -> pyobj -> result pyobj;
  (** [optimize(loss, optimizer_params)] *)
  optimize : pyobj -> pyobj -> result pyobj;
  (** [build_hooks(model_configs, distributed_mode=, is_chief=)] *)
  build_hooks : pyobj -> bool -> bool -> result pyobj;
  (** [build_eval_metrics(model_configs, dataset, is_cheif=, model_name=)] *)
  build_eval_metrics : pyobj -> Dataset -> bool -> pyobj -> result pyobj;
  (** [tf.contrib.framework.list_variables(model_dir)]: (name, shape) pairs *)
  list_variables : string -> result (list (string * pyobj));
  (** [tf.contrib.framework.load_variable(model_dir, var_name)] *)
  load_variable : string -> string -> result pyobj;
  (** [var.shape] of a loaded array *)
  ndarray_shape : pyobj -> pyobj;
  (** [ModelConfigs.load(model_dir)] *)
  ModelConfigs_load : string -> result pyobj;
  (** [EnsembleModel(weight_scheme=, inference_options=).build(input_fields=,
      base_models=, vocab_target=)] under [tf.variable_scope("", reuse=True)] *)
  EnsembleModel_build : pyobj -> pyobj -> pyobj -> list pyobj -> pyobj ->
                        result pyobj
}.

Section ModelBuilder.

Variable GlobalNames : GlobalNamesT.
Variable ext : Collaborators.

(** ** [model_fn] *)

(** The TRAIN branch, lines 150-166, from the build output on. *)
Definition model_fn_train (model_configs : pyobj) (mode : string)
    (dataset : Dataset) (model_name model_output : pyobj)
    (distributed_mode is_chief : bool) : M EstimatorSpec :=
  loss ← liftR (py_getitem0 model_output);
  add_to_collection (DISPLAY_KEY_COLLECTION_NAME GlobalNames)
                    (PyStr (TRAIN_LOSS_KEY_NAME GlobalNames)) ;;
  add_to_collection (DISPLAY_VALUE_COLLECTION_NAME GlobalNames) loss ;;
  optimizer_params ← liftR (py_getitem model_configs "optimizer_params");
  train_op ← liftR (optimize ext loss optimizer_params);
  hooks ← liftR (build_hooks ext model_configs distributed_mode is_chief);
  hooks_items ← liftR (py_extend_attr hooks);
  metrics ← liftR (build_eval_metrics ext model_configs dataset is_chief model_name);
  metrics_items ← liftR (py_iter metrics);
  let hooks := PyList (hooks_items ++ metrics_items) in
  liftR (EstimatorSpec_new mode PyNone loss train_op PyNone hooks).

(** The EVAL branch, lines 170-173. *)
Definition model_fn_eval (mode : string) (model_output : pyobj)
  : M EstimatorSpec :=
  loss ← liftR (py_getitem0 model_output);
  liftR (EstimatorSpec_new mode PyNone loss PyNone PyNone PyNone).

(** Lines 175-179. *)
Definition model_fn_infer (mode : string) (model_output : pyobj)
  : M EstimatorSpec :=
  liftR (py_assert (String.eqb mode ModeKeys.INFER) "") ;;
  let predictions := model_output in
  liftR (EstimatorSpec_new mode predictions PyNone PyNone PyNone PyNone).

(** Lines 133-147: resolve the name, create the model, build it. *)
Definition model_fn_build (model_configs : pyobj) (mode : string)
    (dataset : Dataset) (name reuse : pyobj) (verbose : bool)
  : result (pyobj * pyobj) :=
  model_name ←
    (if py_truthy name then mret name
     else model ← py_getitem model_configs "model"; split_dot_last model);
  model_id ← py_getitem model_configs "model";
  model_params ← py_getitem model_configs "model_params";
  model ← new_model ext model_id model_params mode
            (vocab_source dataset) (vocab_target dataset) model_name verbose;
  model_output ← model_build ext model (input_fields dataset) reuse;
  mret (model_name, model_output).

Definition model_fn (model_configs : pyobj) (mode : string)
    (dataset : Dataset) (name reuse : pyobj)
    (distributed_mode is_chief verbose : bool) : M EstimatorSpec :=
  built ← liftR (model_fn_build model_configs mode dataset name reuse verbose);
  let model_name := fst built in
  let model_output := snd built in
  if String.eqb mode ModeKeys.TRAIN then
    model_fn_train model_configs mode dataset model_name model_output
                   distributed_mode is_chief
  else if String.eqb mode ModeKeys.EVAL then
    model_fn_eval mode model_output
  else
    model_fn_infer mode model_output.

(** ** [model_fn_ensemble] *)

(** The namespace of the checkpoint at position [index], line 216. *)
Definition ensemble_scope (index : nat) : string :=
  ENSEMBLE_VARNAME_PREFIX GlobalNames +:+ py_str index.

(** The loop of lines 210-219 over the variables of one checkpoint;
    [model_name] is the loop-carried local. *)
Fixpoint load_variables (model_dir : string) (index : nat)
    (vars : list (string * pyobj)) (model_name : option string)
  : M (option string) :=
  match vars with
  | [] => mret model_name
  | (var_name, _) :: rest =>
      if String.prefix "OptimizeLoss" var_name then
        load_variables model_dir index rest model_name
      else
        let model_name :=
          match model_name with
          | None => _inspect_varname_prefix var_name
          | Some _ => model_name
          end in
        var ← liftR (load_variable ext model_dir var_name);
        get_variable (ensemble_scope index) var_name
                     (ndarray_shape ext var) var ;;
        load_variables model_dir index rest model_name
  end.

(** [bool(model_name)] for a name that is [None] or a string. *)
Definition name_truthy (model_name : option string) : bool :=
  match model_name with
  | None => false
  | Some s => negb (String.eqb s "")
  end.

Definition name_obj (model_name : option string) : pyobj :=
  match model_name with
  | None => PyNone
  | Some s => PyStr s
  end.

(** One iteration of the loop of lines 205-234; returns the model. *)
Definition load_model (dataset : Dataset) (index : nat) (model_dir : string)
  : M pyobj :=
  vars ← liftR (list_variables ext model_dir);
  model_name ← load_variables model_dir index vars None;
  liftR (py_assert (name_truthy model_name) "Fail to fetch model name") ;;
  model_configs ← liftR (ModelConfigs_load ext model_dir);
  model_id ← liftR (py_getitem model_configs "model");
  model_params ← liftR (py_getitem model_configs "model_params");
  liftR (new_model ext model_id model_params ModeKeys.INFER
           (vocab_source dataset) (vocab_target dataset)
           (name_obj model_name) false).

(** [for index, model_dir in enumerate(model_dirs)], from [index] on. *)
Fixpoint load_models (dataset : Dataset) (index : nat)
    (model_dirs : list string) (models : list pyobj) : M (list pyobj) :=
  match model_dirs with
  | [] => mret models
  | model_dir :: rest =>
      model ← load_model dataset index model_dir;
      load_models dataset (S index) rest (models ++ [model])
  end.

Definition model_fn_ensemble (model_dirs : list string) (dataset : Dataset)
    (weight_scheme inference_options : pyobj) (verbose : bool)
  : M EstimatorSpec :=
  models ← load_models dataset 0 model_dirs [];
  predictions ← liftR (EnsembleModel_build ext weight_scheme inference_options
                         (input_fields dataset) models (vocab_target dataset));
  liftR (EstimatorSpec_new ModeKeys.INFER predictions PyNone PyNone PyNone PyNone).

End ModelBuilder.

(** ** Vocabulary of the statements *)

(** No character of [s] is the scope separator. *)
Fixpoint no_slash (s : string) : bool :=
  match s with
  | EmptyString => true
  | String c s' => negb (Ascii.eqb c "/") && no_slash s'
  end.

(** The elements of [tuple(x or [])], lines 80-81. *)
Definition hook_items (x : pyobj) : result (list pyobj) :=
  py_iter (py_or x (PyList [])).

(** As the docstring of [__new__] words it: PREDICT (here [INFER]) requires
    [predictions], TRAIN and EVAL require [loss], TRAIN also requires
    [train_op]; a field is present when it is not [None]. *)
Definition spec_required_present (mode : string)
    (predictions loss train_op : pyobj) : bool :=
  (if String.eqb mode ModeKeys.INFER then negb (is_None predictions) else true)
  && (if String.eqb mode ModeKeys.TRAIN || String.eqb mode ModeKeys.EVAL
      then negb (is_None loss) else true)
  && (if String.eqb mode ModeKeys.TRAIN then negb (is_None train_op) else true).

(** The graph after the two registrations of lines 152-153. *)
Definition registered (names : GlobalNamesT) (loss : pyobj) (g : Graph) : Graph :=
  snd (add_to_collection (DISPLAY_VALUE_COLLECTION_NAME names) loss
         (snd (add_to_collection (DISPLAY_KEY_COLLECTION_NAME names)
                 (PyStr (TRAIN_LOSS_KEY_NAME names)) g))).

(** Lines 155-166, which no longer touch the graph. *)
Definition train_tail (ext : Collaborators) (model_configs : pyobj)
    (mode : string) (dataset : Dataset) (model_name loss : pyobj)
    (distributed_mode is_chief : bool) : result EstimatorSpec :=
  optimizer_params ← py_getitem model_configs "optimizer_params";
  train_op ← optimize ext loss optimizer_params;
  hooks ← build_hooks ext model_configs distributed_mode is_chief;
  hooks_items ← py_extend_attr hooks;
  metrics ← build_eval_metrics ext model_configs dataset is_chief model_name;
  metrics_items ← py_iter metrics;
  EstimatorSpec_new mode PyNone loss train_op PyNone
                    (PyList (hooks_items ++ metrics_items)).

(** ** A sample environment for the examples *)

Definition sample_names : GlobalNamesT :=
  {| DISPLAY_KEY_COLLECTION_NAME := "display_keys";
     DISPLAY_VALUE_COLLECTION_NAME := "display_values";
     TRAIN_LOSS_KEY_NAME := "training_loss";
     ENSEMBLE_VARNAME_PREFIX := "ensemble" |}.

Definition sample_configs : pyobj :=
  PyDict [("model", PyStr "njunmt.models.SequenceToSequence");
          ("model_params", PyDict []);
          ("optimizer_params", PyDict [])].

Definition sample_dataset : Dataset :=
  {| vocab_source := PyObj 10; vocab_target := PyObj 11;
     input_fields := PyDict [("feature_ids", PyObj 12)] |}.

(** Checkpoint ["dirA"] lists an optimizer slot, the step counter and two
    model variables; ["dirB"] holds the same model variables; any other
    directory holds variables without a marker. *)
Definition sample_list_variables (model_dir : string)
  : result (list (string * pyobj)) :=
  if String.eqb model_dir "dirA" then
    inr [("OptimizeLoss/scopeA/input_symbol_modality/weights/Adam", PyTuple []);
         ("global_step", PyTuple []);
         ("scopeA/input_symbol_modality/weights", PyTuple []);
         ("scopeA/decoder/bias", PyTuple [])]
  else if String.eqb model_dir "dirB" then
    inr [("scopeA/input_symbol_modality/weights", PyTuple []);
         ("scopeA/decoder/bias", PyTuple [])]
  else
    inr [("global_step", PyTuple []); ("dense/kernel", PyTuple [])].

Definition sample_ext : Collaborators :=
  {| new_model := fun _ _ _ _ _ _ _ => inr (PyObj 20);
     model_build := fun _ _ _ => inr (PyTuple [PyObj 1; PyObj 2]);
     optimize := fun _ _ => inr (PyObj 3);
     build_hooks := fun _ _ _ => inr (PyList [PyHook 1]);
     build_eval_metrics := fun _ _ _ _ => inr (PyList [PyHook 2]);
     list_variables := sample_list_variables;
     load_variable := fun _ _ => inr (PyObj 30);
     ndarray_shape := fun _ => PyTuple [];
     ModelConfigs_load := fun _ => inr sample_configs;
     EnsembleModel_build := fun _ _ _ models _ => inr (PyDict [("ids", PyList models)]) |}.

Definition empty_graph : Graph := {| collections := ∅; variables := ∅ |}.

(** [var_name.startswith("OptimizeLoss")] *)
Definition is_optimizer_var (var_name : string) : bool :=
  String.prefix "OptimizeLoss" var_name.

(** The names of a listing that the loop of line 210 does not skip. *)
Definition kept_names (vars : list (string * pyobj)) : list string :=
  List.filter (fun v => negb (is_optimizer_var v)) (map fst vars).

(** The name given by the first of [names] in which a marker is found. *)
Fixpoint first_inferred (names : list string) : option string :=
  match names with
  | [] => None
  | var_name :: rest =>
      match _inspect_varname_prefix var_name with
      | Some model_name => Some model_name
      | None => first_inferred rest
      end
  end.

(** Variable [n] is declared in [g'] and was not in [g]. *)
Definition declared_between (g g' : Graph) (n : string) : Prop :=
  variables g !! n = None /\ is_Some (variables g' !! n).

(** Lines 221-233, which no longer touch the graph. *)
Definition load_model_tail (ext : Collaborators) (dataset : Dataset)
    (model_dir : string) (model_name : option string) : result pyobj :=
  py_assert (name_truthy model_name) "Fail to fetch model name" ;;
  model_configs ← ModelConfigs_load ext model_dir;
  model_id ← py_getitem model_configs "model";
  model_params ← py_getitem model_configs "model_params";
  new_model ext model_id model_params ModeKeys.INFER
            (vocab_source dataset) (vocab_target dataset)
            (name_obj model_name) false.

(** No character of [s] is the dot that [split] cuts at. *)
Fixpoint no_dot (s : string) : bool :=
  match s with
  | EmptyString => true
  | String c s' => negb (Ascii.eqb c ".") && no_dot s'
  end.

(** The sample environment with training collaborators that all raise. *)
Definition sample_ext_no_training : Collaborators :=
  {| new_model := new_model sample_ext;
     model_build := model_build sample_ext;
     optimize := fun _ _ => inl (ExternalError "optimize");
     build_hooks := fun _ _ _ => inl (ExternalError "build_hooks");
     build_eval_metrics := fun _ _ _ _ => inl (ExternalError "build_eval_metrics");
     list_variables := list_variables sample_ext;
     load_variable := load_variable sample_ext;
     ndarray_shape := ndarray_shape sample_ext;
     ModelConfigs_load := ModelConfigs_load sample_ext;
     EnsembleModel_build := EnsembleModel_build sample_ext |}.

(** The sample environment with an evaluation metric that is not a hook. *)
Definition sample_ext_bad_metric : Collaborators :=
  {| new_model := new_model sample_ext;
     model_build := model_build sample_ext;
     optimize := optimize sample_ext;
     build_hooks := build_hooks sample_ext;
     build_eval_metrics := fun _ _ _ _ => inr (PyList [PyHook 2; PyObj 5]);
     list_variables := list_variables sample_ext;
     load_variable := load_variable sample_ext;
     ndarray_shape := ndarray_shape sample_ext;
     ModelConfigs_load := ModelConfigs_load sample_ext;
     EnsembleModel_build := EnsembleModel_build sample_ext |}.

(** The sample environment over checkpoints whose first embedding sits at
    the root scope. *)
Definition sample_ext_rootscope : Collaborators :=
  {| new_model := new_model sample_ext;
     model_build := model_build sample_ext;
     optimize := optimize sample_ext;
     build_hooks := build_hooks sample_ext;
     build_eval_metrics := build_eval_metrics sample_ext;
     list_variables := fun _ =>
       inr [("/input_symbol_modality/weights", PyTuple []);
            ("scopeA/input_symbol_modality/weights", PyTuple [])];
     load_variable := load_variable sample_ext;
     ndarray_shape := ndarray_shape sample_ext;
     ModelConfigs_load := ModelConfigs_load sample_ext;
     EnsembleModel_build := EnsembleModel_build sample_ext |}.

(** The sample environment with a model whose build returns an empty
    tuple and an aggregator that returns [None]. *)
Definition sample_ext_empty_output : Collaborators :=
  {| new_model := new_model sample_ext;
     model_build := fun _ _ _ => inr (PyTuple []);
     optimize := optimize sample_ext;
     build_hooks := build_hooks sample_ext;
     build_eval_metrics := build_eval_metrics sample_ext;
     list_variables := list_variables sample_ext;
     load_variable := load_variable sample_ext;
     ndarray_shape := ndarray_shape sample_ext;
     ModelConfigs_load := ModelConfigs_load sample_ext;
     EnsembleModel_build := fun _ _ _ _ _ => inr PyNone |}.

(** [model] is what lines 221-233 create for the checkpoint [model_dir]:
    the model of the persisted configuration, in INFER mode, under the
    name inferred from the kept variables. *)
Definition reloaded_model (ext : Collaborators) (dataset : Dataset)
    (model_dir : string) (model : pyobj) : Prop :=
  exists vars model_name model_configs model_id model_params,
    list_variables ext model_dir = inr vars /\
    first_inferred (kept_names vars) = Some model_name /\
    model_name <> EmptyString /\
    ModelConfigs_load ext model_dir = inr model_configs /\
    py_getitem model_configs "model" = inr model_id /\
    py_getitem model_configs "model_params" = inr model_params /\
    new_model ext model_id model_params ModeKeys.INFER
              (vocab_source dataset) (vocab_target dataset)
              (PyStr model_name) false = inr model.

(** [keywords] is found somewhere in [text]. *)
Definition occurs (keywords text : string) : Prop :=
  exists before after, text = before +:+ keywords +:+ after.

(** [x] is the first element of the sequence [seq]: of a tuple, of a list,
    or the first character of a string. *)
Inductive first_item : pyobj -> pyobj -> Prop :=
| first_of_tuple (x : pyobj) (rest : list pyobj) :
    first_item (PyTuple (x :: rest)) x
| first_of_list (x : pyobj) (rest : list pyobj) :
    first_item (PyList (x :: rest)) x
| first_of_str (c : ascii) (s : string) :
    first_item (PyStr (String c s)) (PyStr (String c EmptyString)).

(** * Properties *)

(** ** Strings and namespaces *)

Lemma append_cons (c : ascii) (s t : string) :
  String c s +:+ t = String c (s +:+ t).
Proof. reflexivity. Qed.

Lemma append_nil (t : string) : EmptyString +:+ t = t.
Proof. reflexivity. Qed.

Lemma append_inj_l (p a b : string) : p +:+ a = p +:+ b -> a = b.
Proof.
  induction p as [|c p IH]; [done|].
  rewrite !append_cons. intros [= H]. by apply IH.
Qed.

Lemma prefix_split (k s : string) :
  String.prefix k s = true -> exists post, s = k +:+ post.
Proof.
  revert s. induction k as [|c k IH]; intros [|d s]; simpl; try done.
  - by exists EmptyString.
  - by exists (String d s).
  - destruct (ascii_dec c d) as [->|]; [|done].
    intros [post ->]%IH. by exists post.
Qed.

Lemma index_cons (k : string) (c : ascii) (s : string) :
  String.index 0 k (String c s) =
  if String.prefix k (String c s) then Some 0
  else match String.index 0 k s with Some n => Some (S n) | None => None end.
Proof. reflexivity. Qed.

(** Where [str.index] finds [k], the text reads: what precedes, [k], a rest. *)
Lemma index_split (k s : string) (i : nat) :
  String.index 0 k s = Some i ->
  exists post, s = substring 0 i s +:+ k +:+ post.
Proof.
  revert i. induction s as [|c s IH]; intros i.
  - destruct k; intros ?; simplify_eq/=. exists EmptyString. reflexivity.
  - rewrite index_cons. destruct (String.prefix k (String c s)) eqn:Hp.
    + intros ?; simplify_eq. apply prefix_split in Hp as [post Hp].
      exists post. exact Hp.
    + destruct (String.index 0 k s) as [n|]; [|done].
      intros ?; simplify_eq. destruct (IH n eq_refl) as [post Hpost].
      exists post.
      change (String c s = String c (substring 0 n s +:+ k +:+ post)).
      by f_equal.
Qed.

Lemma py_str_no_slash (n : nat) : no_slash (py_str n) = true.
Proof.
  unfold py_str. generalize (Nat.to_uint n).
  induction u; simpl; auto.
Qed.

Lemma py_str_inj (i j : nat) : py_str i = py_str j -> i = j.
Proof.
  unfold py_str. intros H. apply Unsigned.to_uint_inj.
  apply (f_equal NilEmpty.uint_of_string) in H.
  rewrite !NilEmpty.usu in H. congruence.
Qed.

Lemma py_str_nonempty (n : nat) : py_str n <> EmptyString.
Proof.
  intros H. unfold py_str in H.
  destruct (Nat.to_uint n) eqn:Hu; try discriminate.
  pose proof (Unsigned.of_to n) as Hn. rewrite Hu in Hn.
  cbn in Hn. subst n. discriminate Hu.
Qed.

(** Two texts of digits, each followed by the separator, agree only if the
    digits agree. *)
Lemma slash_split_inj (d1 d2 a b : string) :
  no_slash d1 = true -> no_slash d2 = true ->
  d1 +:+ "/" +:+ a = d2 +:+ "/" +:+ b -> d1 = d2 /\ a = b.
Proof.
  revert d2. induction d1 as [|c d1 IH]; intros [|c2 d2]; simpl;
    rewrite ?append_cons, ?append_nil.
  - intros _ _ [= ->]. done.
  - intros _ [Hc _]%andb_prop [= <- _]. done.
  - intros [Hc _]%andb_prop _ [= -> _]. done.
  - intros [_ H1]%andb_prop [_ H2]%andb_prop [= -> H].
    destruct (IH d2 H1 H2 H) as [-> ->]. done.
Qed.

Lemma prefix_append (k post : string) : String.prefix k (k +:+ post) = true.
Proof.
  induction k as [|c k IH]; [by destruct post|].
  rewrite append_cons. simpl. by destruct (ascii_dec c c).
Qed.

Lemma prefix_cons (c d : ascii) (k s : string) :
  String.prefix (String c k) (String d s)
  = if ascii_dec c d then String.prefix k s else false.
Proof. reflexivity. Qed.

(** A pattern without separator cannot reach across a separator. *)
Lemma prefix_no_slash_app (k s t : string) :
  no_slash k = true ->
  String.prefix k (s +:+ String "/" t) = String.prefix k s.
Proof.
  revert s. induction k as [|c k IH]; intros s Hk.
  - by destruct s.
  - simpl in Hk. apply andb_prop in Hk as [Hc Hk].
    destruct s as [|d s].
    + rewrite append_nil. simpl.
      destruct (ascii_dec c "/") as [->|]; [done|done].
    + rewrite append_cons. simpl.
      destruct (ascii_dec c d); [by apply IH|done].
Qed.

Lemma substring_append_length (s t : string) :
  substring 0 (String.length s) (s +:+ t) = s.
Proof.
  induction s as [|c s IH]; [by destruct t|].
  rewrite append_cons. simpl. by f_equal.
Qed.

(** A marker made of a separator and separator-free text, appended to a
    text that does not hold it, is first found where it was appended. *)
Lemma index_marker_append (tail scope rest : string) :
  no_slash tail = true ->
  String.index 0 (String "/" tail) scope = None ->
  String.index 0 (String "/" tail) (scope +:+ String "/" tail +:+ rest)
  = Some (String.length scope).
Proof.
  intros Htail. induction scope as [|c scope IH]; intros Hscope.
  - rewrite append_nil, append_cons, index_cons.
    by rewrite <- append_cons, prefix_append.
  - rewrite index_cons in Hscope.
    destruct (String.prefix (String "/" tail) (String c scope)) eqn:Hp;
      [done|].
    destruct (String.index 0 (String "/" tail) scope) eqn:Hi; [done|].
    rewrite append_cons, index_cons, IH by done.
    assert (String.prefix (String "/" tail)
              (String c (scope +:+ String "/" tail +:+ rest)) = false) as ->.
    { rewrite prefix_cons in *. destruct (ascii_dec "/" c); [|done].
      change (String "/" tail +:+ rest) with (String "/" (tail +:+ rest)).
      by rewrite prefix_no_slash_app. }
    done.
Qed.

(** ** [EstimatorSpec.__new__] *)

Lemma hook_items_None : hook_items PyNone = inr [].
Proof. reflexivity. Qed.

Lemma hook_items_list (xs : list pyobj) : hook_items (PyList xs) = inr xs.
Proof. by destruct xs. Qed.

Lemma hook_items_tuple (xs : list pyobj) : hook_items (PyTuple xs) = inr xs.
Proof. by destruct xs. Qed.

Lemma py_tuple_hook_items (x : pyobj) :
  py_tuple (py_or x (PyList [])) = xs ← hook_items x; mret (PyTuple xs).
Proof. reflexivity. Qed.

Lemma check_hooks_ok (hooks : list pyobj) :
  forallb isinstance_SessionRunHook hooks = true -> check_hooks hooks = inr tt.
Proof.
  induction hooks as [|x hooks IH]; simpl; [done|].
  intros [-> ?]%andb_prop. simpl. auto.
Qed.

Lemma forallb_false_In {A} (f : A -> bool) (l : list A) :
  forallb f l = false -> exists x, In x l /\ f x = false.
Proof.
  induction l as [|a l IH]; simpl; [done|].
  destruct (f a) eqn:Ha; simpl.
  - intros (x & ? & ?)%IH. eauto.
  - eauto.
Qed.

(** The loop raises at the first object that is not a hook, wherever a bad
    object stands. *)
Lemma check_hooks_bad (hooks : list pyobj) (x : pyobj) :
  In x hooks -> isinstance_SessionRunHook x = false ->
  exists bad, In bad hooks /\ isinstance_SessionRunHook bad = false /\
              check_hooks hooks = inl (TypeError hooks_TypeError_msg bad).
Proof.
  induction hooks as [|y hooks IH]; simpl; [done|].
  intros Hin Hx. destruct (isinstance_SessionRunHook y) eqn:Hy; simpl.
  - destruct Hin as [->|Hin]; [congruence|].
    destruct (IH Hin Hx) as (bad & ? & ? & ?). eauto 6.
  - exists y. eauto.
Qed.

Lemma EstimatorSpec_new_missing (mode : string)
    (predictions loss train_op chief hooks : pyobj) :
  spec_required_present mode predictions loss train_op = false ->
  exists msg, EstimatorSpec_new mode predictions loss train_op chief hooks
              = inl (ValueError msg).
Proof.
  unfold spec_required_present, EstimatorSpec_new. intros H.
  destruct (String.eqb mode ModeKeys.INFER), (String.eqb mode ModeKeys.TRAIN),
    (String.eqb mode ModeKeys.EVAL), (is_None predictions), (is_None loss),
    (is_None train_op); simpl in *; try discriminate; eauto.
Qed.

Lemma EstimatorSpec_new_present (mode : string)
    (predictions loss train_op chief hooks : pyobj) :
  spec_required_present mode predictions loss train_op = true ->
  EstimatorSpec_new mode predictions loss train_op chief hooks =
  (cs ← hook_items chief;
   hs ← hook_items hooks;
   check_hooks (hs ++ cs) ;;
   mret {| predictions := predictions; loss := loss; train_op := train_op;
           training_chief_hooks := PyTuple cs;
           training_hooks := PyTuple hs |}).
Proof.
  unfold spec_required_present, EstimatorSpec_new. intros H.
  rewrite !py_tuple_hook_items.
  destruct (String.eqb mode ModeKeys.INFER), (String.eqb mode ModeKeys.TRAIN),
    (String.eqb mode ModeKeys.EVAL), (is_None predictions), (is_None loss),
    (is_None train_op); simpl in *; try discriminate;
    destruct (hook_items chief), (hook_items hooks); reflexivity.
Qed.

(** Exactly when construction returns a record, and which. *)
Lemma EstimatorSpec_new_inr (mode : string)
    (predictions loss train_op chief hooks : pyobj) (r : EstimatorSpec) :
  EstimatorSpec_new mode predictions loss train_op chief hooks = inr r <->
  spec_required_present mode predictions loss train_op = true /\
  exists cs hs,
    hook_items chief = inr cs /\ hook_items hooks = inr hs /\
    forallb isinstance_SessionRunHook (hs ++ cs) = true /\
    r = {| predictions := predictions; loss := loss; train_op := train_op;
           training_chief_hooks := PyTuple cs;
           training_hooks := PyTuple hs |}.
Proof.
  destruct (spec_required_present mode predictions loss train_op) eqn:Hreq.
  - rewrite EstimatorSpec_new_present by done. split.
    + destruct (hook_items chief) as [e|cs]; [done|].
      destruct (hook_items hooks) as [e|hs]; [done|]. simpl.
      destruct (forallb isinstance_SessionRunHook (hs ++ cs)) eqn:Hall.
      * rewrite check_hooks_ok by done. simpl. intros [= <-]. eauto 10.
      * apply forallb_false_In in Hall as (x & Hin & Hx).
        destruct (check_hooks_bad _ x Hin Hx) as (bad & _ & _ & ->). done.
    + intros (_ & cs & hs & -> & -> & Hall & ->). simpl.
      by rewrite check_hooks_ok.
  - split; [|by intros [? _]].
    destruct (EstimatorSpec_new_missing mode predictions loss train_op
                chief hooks Hreq) as [msg ->]. done.
Qed.

(** C1, as stated, fails: in EVAL mode with the required [loss] present,
    a [training_hooks] list holding an object that is not a
    [SessionRunHook] makes construction raise [TypeError]. *)
Lemma EstimatorSpec_new_present_but_bad_hook :
  spec_required_present ModeKeys.EVAL PyNone (PyObj 0) PyNone = true /\
  EstimatorSpec_new ModeKeys.EVAL PyNone (PyObj 0) PyNone
                    PyNone (PyList [PyObj 1])
  = inl (TypeError hooks_TypeError_msg (PyObj 1)).
Proof. split; reflexivity. Qed.

(** C1 (amended): for every mode, TRAIN, EVAL and INFER in particular,
    construction with a mode-required field absent raises [ValueError],
    whatever the hooks; with all required fields present it returns the
    record built from the arguments provided both hook arguments iterate to
    [SessionRunHook] instances only (a missing hook argument counts as
    empty). *)
Theorem EstimatorSpec_new_required_fields (mode : string)
    (predictions loss train_op chief hooks : pyobj) :
  (spec_required_present mode predictions loss train_op = false ->
   exists msg, EstimatorSpec_new mode predictions loss train_op chief hooks
               = inl (ValueError msg)) /\
  (spec_required_present mode predictions loss train_op = true ->
   forall cs hs,
     hook_items chief = inr cs -> hook_items hooks = inr hs ->
     forallb isinstance_SessionRunHook (hs ++ cs) = true ->
     EstimatorSpec_new mode predictions loss train_op chief hooks
     = inr {| predictions := predictions; loss := loss; train_op := train_op;
              training_chief_hooks := PyTuple cs;
              training_hooks := PyTuple hs |}).
Proof.
  split.
  - apply EstimatorSpec_new_missing.
  - intros Hreq cs hs Hcs Hhs Hall. apply EstimatorSpec_new_inr.
    split; [done|]. eauto 10.
Qed.

(** TRAIN without [train_op] is refused; TRAIN with [loss], [train_op] and one
    hook is accepted. *)
Lemma EstimatorSpec_new_required_fields_witness :
  (exists msg, EstimatorSpec_new ModeKeys.TRAIN PyNone (PyObj 0) PyNone
                 PyNone (PyList [PyObj 7]) = inl (ValueError msg)) /\
  EstimatorSpec_new ModeKeys.TRAIN PyNone (PyObj 0) (PyObj 1)
                    PyNone (PyList [PyHook 2])
  = inr {| predictions := PyNone; loss := PyObj 0; train_op := PyObj 1;
           training_chief_hooks := PyTuple [];
           training_hooks := PyTuple [PyHook 2] |}.
Proof.
  split.
  - apply (EstimatorSpec_new_required_fields ModeKeys.TRAIN PyNone (PyObj 0)
             PyNone PyNone (PyList [PyObj 7])).
    reflexivity.
  - apply (EstimatorSpec_new_required_fields ModeKeys.TRAIN PyNone (PyObj 0)
             (PyObj 1) PyNone (PyList [PyHook 2]));
      reflexivity.
Defined.

(** C3, as stated, fails: no projection of the returned record gives back
    the mode, because constructions that differ in the mode only return
    the same record. *)
Lemma EstimatorSpec_mode_not_a_field :
  ~ exists get_mode : EstimatorSpec -> string,
      forall mode predictions loss train_op chief hooks r,
        EstimatorSpec_new mode predictions loss train_op chief hooks = inr r ->
        get_mode r = mode.
Proof.
  intros [get_mode H].
  pose proof (H ModeKeys.EVAL (PyObj 0) (PyObj 1) PyNone PyNone PyNone
                _ eq_refl) as H1.
  pose proof (H ModeKeys.INFER (PyObj 0) (PyObj 1) PyNone PyNone PyNone
                _ eq_refl) as H2.
  rewrite H1 in H2. discriminate H2.
Qed.

(** C3 (amended): the returned record has the five fields [predictions],
    [loss], [train_op], [training_chief_hooks] and [training_hooks]; the
    first three expose the arguments, the last two the tuples of the hook
    arguments; the mode only drives validation and is not stored, so any
    other mode that also accepts the same arguments returns the same
    record. *)
Theorem EstimatorSpec_fields_without_mode (mode : string)
    (predictions0 loss0 train_op0 chief hooks : pyobj) (r : EstimatorSpec) :
  EstimatorSpec_new mode predictions0 loss0 train_op0 chief hooks = inr r ->
  r = mkEstimatorSpec (predictions r) (loss r) (train_op r)
                      (training_chief_hooks r) (training_hooks r) /\
  predictions r = predictions0 /\ loss r = loss0 /\ train_op r = train_op0 /\
  (xs ← hook_items chief; mret (PyTuple xs)) = inr (training_chief_hooks r) /\
  (xs ← hook_items hooks; mret (PyTuple xs)) = inr (training_hooks r) /\
  forall mode' r',
    EstimatorSpec_new mode' predictions0 loss0 train_op0 chief hooks = inr r' ->
    r' = r.
Proof.
  intros (_ & cs & hs & Hcs & Hhs & _ & ->)%EstimatorSpec_new_inr. simpl.
  rewrite Hcs, Hhs. repeat split; try done.
  intros mode' r' (_ & cs' & hs' & Hcs' & Hhs' & _ & ->)%EstimatorSpec_new_inr.
  congruence.
Qed.

(** The same arguments under EVAL and under INFER give one and the same
    record. *)
Lemma EstimatorSpec_fields_without_mode_witness :
  let r := {| predictions := PyObj 0; loss := PyObj 1; train_op := PyNone;
              training_chief_hooks := PyTuple [];
              training_hooks := PyTuple [PyHook 2] |} in
  EstimatorSpec_new ModeKeys.EVAL (PyObj 0) (PyObj 1) PyNone PyNone
                    (PyTuple [PyHook 2]) = inr r /\
  EstimatorSpec_new ModeKeys.INFER (PyObj 0) (PyObj 1) PyNone PyNone
                    (PyTuple [PyHook 2]) = inr r /\
  predictions r = PyObj 0 /\ loss r = PyObj 1 /\ train_op r = PyNone.
Proof.
  intros r.
  pose proof (EstimatorSpec_fields_without_mode ModeKeys.EVAL (PyObj 0)
                (PyObj 1) PyNone PyNone (PyTuple [PyHook 2]) r eq_refl)
    as (_ & Hp & Hl & Ht & _).
  repeat split; assumption || reflexivity.
Defined.

(** C8, as stated, fails: with a bad object in [training_hooks] but the
    [loss] that TRAIN requires absent, construction raises the
    [ValueError] of line 76, not a [TypeError]: the required-field checks
    run before the hooks are looked at. *)
Lemma EstimatorSpec_new_bad_hook_ValueError_first :
  hook_items (PyList [PyObj 1]) = inr [PyObj 1] /\
  isinstance_SessionRunHook (PyObj 1) = false /\
  EstimatorSpec_new ModeKeys.TRAIN PyNone PyNone PyNone
                    PyNone (PyList [PyObj 1])
  = inl (ValueError "Missing loss.").
Proof. repeat split. Qed.

(** C8 (amended): if any object of either hook sequence is not a
    [SessionRunHook] instance, at whatever position, construction never
    returns a record; when the mode-required fields are present the error
    is the [TypeError] of line 84, naming an object that is not a hook
    (when one is absent, the [ValueError] comes first). *)
Theorem EstimatorSpec_new_rejects_bad_hook (mode : string)
    (predictions loss train_op chief hooks : pyobj)
    (cs hs : list pyobj) (x : pyobj) :
  hook_items chief = inr cs -> hook_items hooks = inr hs ->
  In x hs \/ In x cs ->
  isinstance_SessionRunHook x = false ->
  (forall r, EstimatorSpec_new mode predictions loss train_op chief hooks
             <> inr r) /\
  (spec_required_present mode predictions loss train_op = true ->
   exists bad,
     (In bad hs \/ In bad cs) /\ isinstance_SessionRunHook bad = false /\
     EstimatorSpec_new mode predictions loss train_op chief hooks
     = inl (TypeError hooks_TypeError_msg bad)).
Proof.
  intros Hcs Hhs Hin Hx. apply in_app_iff in Hin. split.
  - intros r (_ & cs' & hs' & Hcs' & Hhs' & Hall & _)%EstimatorSpec_new_inr.
    assert (cs' = cs) as -> by congruence.
    assert (hs' = hs) as -> by congruence.
    rewrite forallb_forall in Hall. specialize (Hall x Hin). congruence.
  - intros Hreq. rewrite EstimatorSpec_new_present by done.
    rewrite Hcs, Hhs. simpl.
    destruct (check_hooks_bad _ x Hin Hx) as (bad & Hbad & Hb & ->).
    exists bad. rewrite <- in_app_iff. done.
Qed.

(** A string as the last chief hook, behind three genuine hooks, is
    refused. *)
Lemma EstimatorSpec_new_rejects_bad_hook_witness :
  exists bad,
    (In bad [PyHook 1; PyHook 2] \/ In bad [PyHook 3; PyStr "hook"]) /\
    isinstance_SessionRunHook bad = false /\
    EstimatorSpec_new ModeKeys.TRAIN PyNone (PyObj 0) (PyObj 1)
                      (PyTuple [PyHook 3; PyStr "hook"])
                      (PyList [PyHook 1; PyHook 2])
    = inl (TypeError hooks_TypeError_msg bad).
Proof.
  apply (EstimatorSpec_new_rejects_bad_hook ModeKeys.TRAIN PyNone (PyObj 0)
           (PyObj 1) (PyTuple [PyHook 3; PyStr "hook"])
           (PyList [PyHook 1; PyHook 2]) _ _ (PyStr "hook")
           eq_refl eq_refl);
    [right; right; left; reflexivity | reflexivity | reflexivity].
Defined.

(** C9: in every record the constructor returns, both hook fields are
    tuples holding the elements of the given collections, in order; a hook
    argument that is [None] gives the empty tuple, and neither field is
    ever [None]. *)
Theorem EstimatorSpec_new_hooks_are_tuples (mode : string)
    (predictions loss train_op chief hooks : pyobj) (r : EstimatorSpec) :
  EstimatorSpec_new mode predictions loss train_op chief hooks = inr r ->
  (exists cs hs,
     hook_items chief = inr cs /\ hook_items hooks = inr hs /\
     training_chief_hooks r = PyTuple cs /\ training_hooks r = PyTuple hs) /\
  (forall xs, chief = PyList xs \/ chief = PyTuple xs ->
              training_chief_hooks r = PyTuple xs) /\
  (forall xs, hooks = PyList xs \/ hooks = PyTuple xs ->
              training_hooks r = PyTuple xs) /\
  (chief = PyNone -> training_chief_hooks r = PyTuple []) /\
  (hooks = PyNone -> training_hooks r = PyTuple []) /\
  is_None (training_chief_hooks r) = false /\
  is_None (training_hooks r) = false.
Proof.
  intros (_ & cs & hs & Hcs & Hhs & _ & ->)%EstimatorSpec_new_inr. simpl.
  split; [eauto 10|].
  repeat split.
  - intros xs [->| ->];
      rewrite ?hook_items_list, ?hook_items_tuple in Hcs; congruence.
  - intros xs [->| ->];
      rewrite ?hook_items_list, ?hook_items_tuple in Hhs; congruence.
  - intros ->. rewrite hook_items_None in Hcs. congruence.
  - intros ->. rewrite hook_items_None in Hhs. congruence.
Qed.

(** A list of two hooks comes back as a tuple; the missing chief hooks as
    the empty tuple. *)
Lemma EstimatorSpec_new_hooks_are_tuples_witness :
  let r := {| predictions := PyNone; loss := PyObj 0; train_op := PyObj 1;
              training_chief_hooks := PyTuple [];
              training_hooks := PyTuple [PyHook 1; PyHook 2] |} in
  EstimatorSpec_new ModeKeys.TRAIN PyNone (PyObj 0) (PyObj 1)
                    PyNone (PyList [PyHook 1; PyHook 2]) = inr r /\
  training_chief_hooks r = PyTuple [] /\
  training_hooks r = PyTuple [PyHook 1; PyHook 2].
Proof.
  intros r.
  pose proof (EstimatorSpec_new_hooks_are_tuples ModeKeys.TRAIN PyNone
                (PyObj 0) (PyObj 1) PyNone (PyList [PyHook 1; PyHook 2])
                r eq_refl) as (_ & _ & Hh & Hc & _).
  split; [reflexivity|]. split.
  - apply Hc. reflexivity.
  - apply Hh. left. reflexivity.
Defined.

(** ** The graph monad *)

Lemma bind_liftR {A B} (c : result A) (k : A -> M B) (g : Graph) :
  (x ← liftR c; k x) g =
  match c with
  | inl e => (inl e, g)
  | inr a => k a g
  end.
Proof. unfold mbind, M_bind, liftR. by destruct c. Qed.

Lemma get_collection_add_eq (name : string) (v : pyobj) (g : Graph) :
  get_collection name (snd (add_to_collection name v g))
  = get_collection name g ++ [v].
Proof. unfold get_collection; simpl. by rewrite lookup_insert_eq. Qed.

Lemma get_collection_add_ne (name name' : string) (v : pyobj) (g : Graph) :
  name <> name' ->
  get_collection name' (snd (add_to_collection name v g))
  = get_collection name' g.
Proof. intros. unfold get_collection; simpl. by rewrite lookup_insert_ne. Qed.

Lemma bind_add_to_collection {B} (name : string) (v : pyobj) (k : M B)
    (g : Graph) :
  (add_to_collection name v ;; k) g = k (snd (add_to_collection name v g)).
Proof. reflexivity. Qed.

(** ** [model_fn] *)

(** [x[0]] returns exactly the first element of a tuple, a list or a
    string, and raises on everything else. *)
Lemma py_getitem0_first (out x : pyobj) :
  py_getitem0 out = inr x <-> first_item out x.
Proof.
  split.
  - destruct out as [|s| | |xs|xs|kv]; try done.
    + destruct s; [done|]. intros [= <-]. constructor.
    + destruct xs; [done|]. intros [= <-]. constructor.
    + destruct xs; [done|]. intros [= <-]. constructor.
  - by intros [].
Qed.

Section ModelFn.

Variable GlobalNames : GlobalNamesT.
Variable ext : Collaborators.

Lemma model_fn_unfold (model_configs : pyobj) (mode : string)
    (dataset : Dataset) (name reuse : pyobj)
    (distributed_mode is_chief verbose : bool) (g : Graph) :
  model_fn GlobalNames ext model_configs mode dataset name reuse
           distributed_mode is_chief verbose g =
  match model_fn_build ext model_configs mode dataset name reuse verbose with
  | inl e => (inl e, g)
  | inr (model_name, model_output) =>
      if String.eqb mode ModeKeys.TRAIN then
        model_fn_train GlobalNames ext model_configs mode dataset model_name
                       model_output distributed_mode is_chief g
      else if String.eqb mode ModeKeys.EVAL then
        model_fn_eval mode model_output g
      else model_fn_infer mode model_output g
  end.
Proof.
  unfold model_fn. rewrite bind_liftR.
  destruct (model_fn_build _ _ _ _ _ _ _) as [e|[n out]]; [reflexivity|].
  simpl. by destruct (String.eqb mode ModeKeys.TRAIN),
                     (String.eqb mode ModeKeys.EVAL).
Qed.

(** The TRAIN branch writes the two registrations and nothing else. *)
Lemma model_fn_train_unfold (model_configs : pyobj) (mode : string)
    (dataset : Dataset) (model_name model_output : pyobj)
    (distributed_mode is_chief : bool) (g : Graph) :
  model_fn_train GlobalNames ext model_configs mode dataset model_name
                 model_output distributed_mode is_chief g =
  match py_getitem0 model_output with
  | inl e => (inl e, g)
  | inr loss =>
      (train_tail ext model_configs mode dataset model_name loss
                  distributed_mode is_chief,
       registered GlobalNames loss g)
  end.
Proof.
  unfold model_fn_train. rewrite bind_liftR.
  destruct (py_getitem0 model_output) as [e|loss]; [done|].
  rewrite !bind_add_to_collection. unfold train_tail.
  fold (registered GlobalNames loss g).
  generalize (registered GlobalNames loss g). intros g2.
  rewrite bind_liftR.
  destruct (py_getitem model_configs "optimizer_params") as [e|op]; [done|].
  rewrite bind_liftR. simpl.
  destruct (optimize ext loss op) as [e|train_op]; [done|].
  rewrite bind_liftR. simpl.
  destruct (build_hooks ext model_configs distributed_mode is_chief)
    as [e|hooks]; [done|].
  rewrite bind_liftR. simpl.
  destruct (py_extend_attr hooks) as [e|hooks_items]; [done|].
  rewrite bind_liftR. simpl.
  destruct (build_eval_metrics ext model_configs dataset is_chief model_name)
    as [e|metrics]; [done|].
  rewrite bind_liftR. simpl.
  destruct (py_iter metrics) as [e|metrics_items]; done.
Qed.

Lemma model_fn_eval_unfold (mode : string) (model_output : pyobj) (g : Graph) :
  model_fn_eval mode model_output g =
  (loss ← py_getitem0 model_output;
   EstimatorSpec_new mode PyNone loss PyNone PyNone PyNone, g).
Proof.
  unfold model_fn_eval. rewrite bind_liftR.
  by destruct (py_getitem0 model_output).
Qed.

Lemma model_fn_infer_unfold (mode : string) (model_output : pyobj) (g : Graph) :
  model_fn_infer mode model_output g =
  (py_assert (String.eqb mode ModeKeys.INFER) "" ;;
   EstimatorSpec_new mode model_output PyNone PyNone PyNone PyNone, g).
Proof.
  unfold model_fn_infer. rewrite bind_liftR.
  by destruct (py_assert _ _) as [e|[]].
Qed.

(** Exactly when the rest of the TRAIN branch returns a record, and which. *)
Lemma train_tail_inr (model_configs : pyobj) (mode : string)
    (dataset : Dataset) (model_name x : pyobj)
    (distributed_mode is_chief : bool) (spec : EstimatorSpec) :
  train_tail ext model_configs mode dataset model_name x
             distributed_mode is_chief = inr spec <->
  exists op t hs m ms,
    py_getitem model_configs "optimizer_params" = inr op /\
    optimize ext x op = inr t /\
    build_hooks ext model_configs distributed_mode is_chief = inr (PyList hs) /\
    build_eval_metrics ext model_configs dataset is_chief model_name = inr m /\
    py_iter m = inr ms /\
    forallb isinstance_SessionRunHook (hs ++ ms) = true /\
    spec_required_present mode PyNone x t = true /\
    spec = {| predictions := PyNone; loss := x; train_op := t;
              training_chief_hooks := PyTuple [];
              training_hooks := PyTuple (hs ++ ms) |}.
Proof.
  unfold train_tail. split.
  - destruct (py_getitem model_configs "optimizer_params") as [e|op] eqn:Hop;
      [done|].
    simpl. destruct (optimize ext x op) as [e|t] eqn:Ht; [done|]. simpl.
    destruct (build_hooks ext model_configs distributed_mode is_chief)
      as [e|hooks] eqn:Hh; [done|]. simpl.
    destruct (py_extend_attr hooks) as [e|hs] eqn:Hext; [done|]. simpl.
    destruct hooks; try discriminate Hext. injection Hext as ->.
    destruct (build_eval_metrics ext model_configs dataset is_chief model_name)
      as [e|m] eqn:Hm; [done|]. simpl.
    destruct (py_iter m) as [e|ms] eqn:Hms; [done|]. simpl.
    intros (Hreq & cs & hs' & Hcs & Hhs & Hall & ->)%EstimatorSpec_new_inr.
    rewrite hook_items_None in Hcs. rewrite hook_items_list in Hhs.
    simplify_eq. rewrite app_nil_r in Hall.
    exists op, t, hs, m, ms. repeat split; done.
  - intros (op & t & hs & m & ms & -> & Ht & Hh & Hm & Hms & Hall & Hreq & ->).
    simpl. rewrite Ht. simpl. rewrite Hh. simpl. rewrite Hm. simpl.
    rewrite Hms. simpl. apply EstimatorSpec_new_inr. split; [done|].
    exists [], (hs ++ ms). rewrite hook_items_list, app_nil_r. repeat split; done.
Qed.

(** C5: once the model is built with output [model_output], a TRAIN call
    that returns carries the first element of [model_output] as its loss
    (and it returns whenever the rest of the branch does); an EVAL call
    extracts the first element only and returns a record with that loss and
    nothing else; an INFER call returns a record whose predictions are the
    whole [model_output] and nothing else. *)
Theorem model_fn_mode_assembly (model_configs : pyobj) (mode : string)
    (dataset : Dataset) (name reuse : pyobj)
    (distributed_mode is_chief verbose : bool) (g : Graph)
    (model_name model_output : pyobj) :
  model_fn_build ext model_configs mode dataset name reuse verbose
  = inr (model_name, model_output) ->
  let run := model_fn GlobalNames ext model_configs mode dataset name reuse
                      distributed_mode is_chief verbose g in
  (mode = ModeKeys.TRAIN ->
   (forall spec g', run = (inr spec, g') ->
                    first_item model_output (loss spec)) /\
   (forall x spec,
      first_item model_output x ->
      train_tail ext model_configs mode dataset model_name x
                 distributed_mode is_chief = inr spec ->
      fst run = inr spec /\ loss spec = x)) /\
  (mode = ModeKeys.EVAL ->
   (forall spec g', run = (inr spec, g') ->
      first_item model_output (loss spec) /\
      spec = {| predictions := PyNone; loss := loss spec; train_op := PyNone;
                training_chief_hooks := PyTuple [];
                training_hooks := PyTuple [] |}) /\
   (forall x,
      first_item model_output x -> x <> PyNone ->
      run = (inr {| predictions := PyNone; loss := x; train_op := PyNone;
                    training_chief_hooks := PyTuple [];
                    training_hooks := PyTuple [] |}, g))) /\
  (mode = ModeKeys.INFER ->
   (forall spec g', run = (inr spec, g') ->
      spec = {| predictions := model_output; loss := PyNone;
                train_op := PyNone;
                training_chief_hooks := PyTuple [];
                training_hooks := PyTuple [] |}) /\
   (model_output <> PyNone ->
    run = (inr {| predictions := model_output; loss := PyNone;
                  train_op := PyNone;
                  training_chief_hooks := PyTuple [];
                  training_hooks := PyTuple [] |}, g))).
Proof.
  intros Hbuild run. subst run. rewrite model_fn_unfold, Hbuild.
  split; [|split]; intros ->; simpl.
  - rewrite model_fn_train_unfold. split.
    + intros spec g'.
      destruct (py_getitem0 model_output) as [e|x] eqn:Hx; [done|].
      intros [= Htail _]. apply train_tail_inr in Htail.
      destruct Htail as (? & ? & ? & ? & ? & _ & _ & _ & _ & _ & _ & _ & ->).
      by apply py_getitem0_first.
    + intros x spec ->%py_getitem0_first Htail. simpl. split; [done|].
      apply train_tail_inr in Htail.
      destruct Htail as (? & ? & ? & ? & ? & _ & _ & _ & _ & _ & _ & _ & ->).
      done.
  - rewrite model_fn_eval_unfold. split.
    + intros spec g'.
      destruct (py_getitem0 model_output) as [e|x] eqn:Hx; [done|].
      simpl. intros [= Hnew _].
      apply EstimatorSpec_new_inr in Hnew
        as (_ & cs & hs & [= <-] & [= <-] & _ & ->).
      split; [by apply py_getitem0_first|done].
    + intros x ->%py_getitem0_first Hx. simpl. f_equal. by destruct x.
  - rewrite model_fn_infer_unfold. simpl. split.
    + intros spec g' [= Hnew _].
      apply EstimatorSpec_new_inr in Hnew
        as (_ & cs & hs & [= <-] & [= <-] & _ & ->). done.
    + intros Hout. f_equal. by destruct model_output.
Qed.

(** C6 (amended): a TRAIN call whose build yields an output with a first
    element [x], the training loss, appends the fixed key to the
    display-key collection and [x] to the display-value collection, once
    each and whether or not the call goes on to succeed, and writes to no
    other collection; a TRAIN call that raises before the loss exists, and
    every call in another mode, writes nothing to the graph.  (The graph
    holds the writes of [model_fn] itself, not those of its
    collaborators.) *)
Theorem model_fn_registers_loss_once (model_configs : pyobj) (mode : string)
    (dataset : Dataset) (name reuse : pyobj)
    (distributed_mode is_chief verbose : bool) (g : Graph) :
  let g' := snd (model_fn GlobalNames ext model_configs mode dataset name
                          reuse distributed_mode is_chief verbose g) in
  let KEYS := DISPLAY_KEY_COLLECTION_NAME GlobalNames in
  let VALUES := DISPLAY_VALUE_COLLECTION_NAME GlobalNames in
  (mode <> ModeKeys.TRAIN -> g' = g) /\
  (mode = ModeKeys.TRAIN ->
   match model_fn_build ext model_configs mode dataset name reuse verbose with
   | inl _ => g' = g
   | inr (_, model_output) =>
       match py_getitem0 model_output with
       | inl _ => g' = g
       | inr x =>
           g' = registered GlobalNames x g /\
           (forall c, c <> KEYS -> c <> VALUES ->
                      get_collection c g' = get_collection c g) /\
           (KEYS <> VALUES ->
            get_collection KEYS g'
            = get_collection KEYS g ++ [PyStr (TRAIN_LOSS_KEY_NAME GlobalNames)]
            /\ get_collection VALUES g' = get_collection VALUES g ++ [x])
       end
   end) /\
  (mode = ModeKeys.TRAIN ->
   forall model_name model_output x,
     model_fn_build ext model_configs mode dataset name reuse verbose
     = inr (model_name, model_output) ->
     first_item model_output x ->
     g' = registered GlobalNames x g /\
     (KEYS <> VALUES ->
      get_collection KEYS g'
      = get_collection KEYS g ++ [PyStr (TRAIN_LOSS_KEY_NAME GlobalNames)]
      /\ get_collection VALUES g' = get_collection VALUES g ++ [x])).
Proof.
  intros g' KEYS VALUES. subst g'. rewrite model_fn_unfold.
  assert (Hreg : forall x,
             KEYS <> VALUES ->
             get_collection KEYS (registered GlobalNames x g)
             = get_collection KEYS g
               ++ [PyStr (TRAIN_LOSS_KEY_NAME GlobalNames)]
             /\ get_collection VALUES (registered GlobalNames x g)
                = get_collection VALUES g ++ [x]).
  { intros x Hne. unfold registered. split.
    - by rewrite get_collection_add_ne, get_collection_add_eq.
    - by rewrite get_collection_add_eq, get_collection_add_ne. }
  split; [|split].
  - intros Hmode%String.eqb_neq. rewrite Hmode.
    destruct (model_fn_build _ _ _ _ _ _ _) as [e|[n out]]; [done|].
    destruct (String.eqb mode ModeKeys.EVAL).
    + by rewrite model_fn_eval_unfold.
    + by rewrite model_fn_infer_unfold.
  - intros ->.
    destruct (model_fn_build _ _ _ _ _ _ _) as [e|[n out]]; [done|]. simpl.
    rewrite model_fn_train_unfold.
    destruct (py_getitem0 out) as [e|x]; [done|]. simpl.
    split; [done|]. split; [|apply Hreg].
    intros c Hk Hv. unfold registered. by rewrite !get_collection_add_ne.
  - intros -> n out x -> Hx%py_getitem0_first. simpl.
    rewrite model_fn_train_unfold, Hx. simpl. split; [done|apply Hreg].
Qed.

(** C10: whatever [distributed_mode] and [is_chief] are, a TRAIN call that
    returns a record returns one whose [training_chief_hooks] is the empty
    tuple and whose [training_hooks] holds the hooks of [build_hooks]
    followed by those of [build_eval_metrics]. *)
Theorem model_fn_train_chief_hooks_empty (model_configs : pyobj)
    (dataset : Dataset) (name reuse : pyobj)
    (distributed_mode is_chief verbose : bool) (g g' : Graph)
    (spec : EstimatorSpec) :
  model_fn GlobalNames ext model_configs ModeKeys.TRAIN dataset name reuse
           distributed_mode is_chief verbose g = (inr spec, g') ->
  training_chief_hooks spec = PyTuple [] /\
  exists model_name model_output hs m ms,
    model_fn_build ext model_configs ModeKeys.TRAIN dataset name reuse verbose
    = inr (model_name, model_output) /\
    build_hooks ext model_configs distributed_mode is_chief = inr (PyList hs) /\
    build_eval_metrics ext model_configs dataset is_chief model_name = inr m /\
    py_iter m = inr ms /\
    training_hooks spec = PyTuple (hs ++ ms).
Proof.
  rewrite model_fn_unfold.
  destruct (model_fn_build _ _ _ _ _ _ _) as [e|[n out]]; [done|]. simpl.
  rewrite model_fn_train_unfold.
  destruct (py_getitem0 out) as [e|x]; [done|].
  intros [= Htail _]. apply train_tail_inr in Htail.
  destruct Htail as (op & t & hs & m & ms & _ & _ & Hh & Hm & Hms & _ & _ & ->).
  split; [done|]. exists n, out, hs, m, ms. done.
Qed.

End ModelFn.

(** The three modes on the sample environment, whose model builds the pair
    of tensors 1 and 2. *)
Lemma model_fn_mode_assembly_witness :
  fst (model_fn sample_names sample_ext sample_configs ModeKeys.TRAIN
         sample_dataset PyNone PyNone false true true empty_graph)
  = inr {| predictions := PyNone; loss := PyObj 1; train_op := PyObj 3;
           training_chief_hooks := PyTuple [];
           training_hooks := PyTuple [PyHook 1; PyHook 2] |} /\
  model_fn sample_names sample_ext sample_configs ModeKeys.EVAL
           sample_dataset PyNone PyNone false true true empty_graph
  = (inr {| predictions := PyNone; loss := PyObj 1; train_op := PyNone;
            training_chief_hooks := PyTuple [];
            training_hooks := PyTuple [] |}, empty_graph) /\
  model_fn sample_names sample_ext sample_configs ModeKeys.INFER
           sample_dataset PyNone PyNone false true true empty_graph
  = (inr {| predictions := PyTuple [PyObj 1; PyObj 2]; loss := PyNone;
            train_op := PyNone;
            training_chief_hooks := PyTuple [];
            training_hooks := PyTuple [] |}, empty_graph).
Proof.
  split; [|split].
  - apply (proj2 (proj1 (model_fn_mode_assembly sample_names sample_ext
             sample_configs ModeKeys.TRAIN sample_dataset PyNone PyNone
             false true true empty_graph _ _ eq_refl) eq_refl) (PyObj 1));
      [constructor | reflexivity].
  - apply (proj2 (proj1 (proj2 (model_fn_mode_assembly sample_names sample_ext
             sample_configs ModeKeys.EVAL sample_dataset PyNone PyNone
             false true true empty_graph _ _ eq_refl)) eq_refl) (PyObj 1));
      [constructor | discriminate].
  - apply (proj2 (proj2 (proj2 (model_fn_mode_assembly sample_names sample_ext
             sample_configs ModeKeys.INFER sample_dataset PyNone PyNone
             false true true empty_graph _ _ eq_refl)) eq_refl)).
    discriminate.
Defined.

(** On a graph that already displays the learning rate, TRAIN appends one
    key and one value; EVAL and INFER leave the graph alone. *)
Lemma model_fn_registers_loss_once_witness :
  let g := {| collections := {[ "display_keys" := [PyStr "learning_rate"] ]};
              variables := ∅ |} in
  let run mode := model_fn sample_names sample_ext sample_configs mode
                    sample_dataset PyNone PyNone false true true g in
  (get_collection "display_keys" (snd (run ModeKeys.TRAIN))
   = [PyStr "learning_rate"; PyStr "training_loss"] /\
   get_collection "display_values" (snd (run ModeKeys.TRAIN)) = [PyObj 1]) /\
  snd (run ModeKeys.EVAL) = g /\
  snd (run ModeKeys.INFER) = g.
Proof.
  intros g run. split; [|split].
  - apply (proj2 (proj2 (model_fn_registers_loss_once sample_names sample_ext
                           sample_configs ModeKeys.TRAIN sample_dataset
                           PyNone PyNone false true true g))
             eq_refl (PyStr "SequenceToSequence")
             (PyTuple [PyObj 1; PyObj 2]) (PyObj 1) eq_refl
             (first_of_tuple _ _)).
    discriminate.
  - apply (proj1 (model_fn_registers_loss_once sample_names sample_ext
                    sample_configs ModeKeys.EVAL sample_dataset PyNone PyNone
                    false true true g)).
    discriminate.
  - apply (proj1 (model_fn_registers_loss_once sample_names sample_ext
                    sample_configs ModeKeys.INFER sample_dataset PyNone PyNone
                    false true true g)).
    discriminate.
Defined.

(** C6, as stated, fails: a TRAIN call whose model builds the empty tuple
    has no loss to register; it raises [IndexError] at line 150 and both
    display collections stay empty. *)
Lemma model_fn_train_call_registers_nothing :
  let run := model_fn sample_names sample_ext_empty_output sample_configs
               ModeKeys.TRAIN sample_dataset PyNone PyNone false true true
               empty_graph in
  model_fn_build sample_ext_empty_output sample_configs ModeKeys.TRAIN
                 sample_dataset PyNone PyNone true
  = inr (PyStr "SequenceToSequence", PyTuple []) /\
  fst run = inl (IndexError "index out of range") /\
  get_collection "display_keys" (snd run) = [] /\
  get_collection "display_values" (snd run) = [].
Proof. repeat split. Qed.

(** A distributed, non-chief TRAIN call on the sample environment. *)
Lemma model_fn_train_chief_hooks_empty_witness :
  let run := model_fn sample_names sample_ext sample_configs ModeKeys.TRAIN
               sample_dataset PyNone PyNone true false true empty_graph in
  exists spec,
    run = (inr spec, snd run) /\
    training_chief_hooks spec = PyTuple [] /\
    training_hooks spec = PyTuple [PyHook 1; PyHook 2].
Proof.
  intros run.
  assert (Hrun : run = (inr {| predictions := PyNone; loss := PyObj 1;
                               train_op := PyObj 3;
                               training_chief_hooks := PyTuple [];
                               training_hooks := PyTuple [PyHook 1; PyHook 2] |},
                        snd run))
    by (apply injective_projections; reflexivity).
  eexists. split; [exact Hrun|].
  split; [|reflexivity].
  exact (proj1 (model_fn_train_chief_hooks_empty sample_names sample_ext
                  sample_configs sample_dataset PyNone PyNone true false true
                  empty_graph _ _ Hrun)).
Defined.

(** ** [_inspect_varname_prefix] *)

Lemma index_length (k s : string) (i : nat) :
  String.index 0 k s = Some i -> String.length (substring 0 i s) = i.
Proof.
  revert i. induction s as [|c s IH]; intros i.
  - destruct k; intros ?; simplify_eq/=. reflexivity.
  - rewrite index_cons. destruct (String.prefix k (String c s)).
    + intros ?; simplify_eq. reflexivity.
    + destruct (String.index 0 k s) as [n|]; [|done].
      intros ?; simplify_eq. simpl. f_equal. by apply IH.
Qed.

(** What [prefix_before] cuts: the text up to the first place where
    [keywords] occurs. *)
Lemma prefix_before_spec (keywords var_name : string) :
  py_in keywords var_name = true ->
  (exists post,
     var_name = prefix_before keywords var_name +:+ keywords +:+ post) /\
  String.index 0 keywords var_name
  = Some (String.length (prefix_before keywords var_name)).
Proof.
  unfold py_in, prefix_before.
  destruct (String.index 0 keywords var_name) as [i|] eqn:Hi; [|done].
  intros _. split.
  - by apply index_split.
  - by rewrite (index_length _ _ _ Hi).
Qed.

Lemma _inspect_varname_prefix_Some (var_name model_name : string) :
  _inspect_varname_prefix var_name = Some model_name ->
  exists keywords post,
    (keywords = "/input_symbol_modality" \/
     keywords = "/symbol_modality_" /\
     py_in "/input_symbol_modality" var_name = false) /\
    var_name = model_name +:+ keywords +:+ post /\
    String.index 0 keywords var_name = Some (String.length model_name).
Proof.
  unfold _inspect_varname_prefix.
  destruct (py_in "/input_symbol_modality" var_name) eqn:H1.
  - intros [= <-]. destruct (prefix_before_spec _ _ H1) as [[post Hp] Hi].
    exists "/input_symbol_modality", post. auto.
  - destruct (py_in "/symbol_modality_" var_name) eqn:H2; [|done].
    intros [= <-]. destruct (prefix_before_spec _ _ H2) as [[post Hp] Hi].
    exists "/symbol_modality_", post. auto.
Qed.

Lemma _inspect_varname_prefix_None (var_name : string) :
  _inspect_varname_prefix var_name = None <->
  py_in "/input_symbol_modality" var_name = false /\
  py_in "/symbol_modality_" var_name = false.
Proof.
  unfold _inspect_varname_prefix.
  destruct (py_in "/input_symbol_modality" var_name),
    (py_in "/symbol_modality_" var_name); split; (done || by intros []).
Qed.

(** The [in] test finds a marker exactly where the text can be cut around
    it. *)
Lemma py_in_occurs (keywords text : string) :
  py_in keywords text = true <-> occurs keywords text.
Proof.
  unfold py_in, occurs. split.
  - destruct (String.index 0 keywords text) as [i|] eqn:Hi; [|done].
    intros _. apply index_split in Hi as [post Hpost]. eauto.
  - intros (before & after & ->).
    induction before as [|c before IH].
    + rewrite append_nil. destruct keywords as [|k keywords].
      * by destruct (EmptyString +:+ after).
      * rewrite append_cons, index_cons, <- append_cons.
        by rewrite prefix_append.
    + rewrite append_cons, index_cons.
      destruct (String.prefix _ _); [done|].
      by destruct (String.index 0 keywords (before +:+ keywords +:+ after)).
Qed.

Lemma py_in_not_occurs (keywords text : string) :
  py_in keywords text = false <-> ~ occurs keywords text.
Proof.
  rewrite <- py_in_occurs. by destruct (py_in keywords text).
Qed.

Lemma inspect_first_marker (scope rest : string) :
  ~ occurs "/input_symbol_modality" scope ->
  _inspect_varname_prefix (scope +:+ "/input_symbol_modality" +:+ rest)
  = Some scope.
Proof.
  intros Hscope%py_in_not_occurs.
  unfold _inspect_varname_prefix, py_in, prefix_before in *.
  destruct (String.index 0 "/input_symbol_modality" scope) eqn:Hi; [done|].
  rewrite (index_marker_append "input_symbol_modality" scope rest eq_refl Hi).
  by rewrite substring_append_length.
Qed.

Lemma inspect_second_marker (scope rest : string) :
  ~ occurs "/symbol_modality_" scope ->
  ~ occurs "/input_symbol_modality" (scope +:+ "/symbol_modality_" +:+ rest) ->
  _inspect_varname_prefix (scope +:+ "/symbol_modality_" +:+ rest)
  = Some scope.
Proof.
  intros Hscope%py_in_not_occurs Hfirst%py_in_not_occurs.
  unfold _inspect_varname_prefix, py_in, prefix_before in *.
  destruct (String.index 0 "/input_symbol_modality"
              (scope +:+ "/symbol_modality_" +:+ rest)); [done|].
  destruct (String.index 0 "/symbol_modality_" scope) eqn:Hi; [done|].
  rewrite (index_marker_append "symbol_modality_" scope rest eq_refl Hi).
  by rewrite substring_append_length.
Qed.

Lemma inspect_None_occurs (var_name : string) :
  _inspect_varname_prefix var_name = None <->
  ~ occurs "/input_symbol_modality" var_name /\
  ~ occurs "/symbol_modality_" var_name.
Proof.
  by rewrite _inspect_varname_prefix_None, !py_in_not_occurs.
Qed.

(** The first name that yields something decides, whatever follows. *)
Lemma first_inferred_app (pre post : list string) (v : string) :
  (forall w, In w pre -> _inspect_varname_prefix w = None) ->
  first_inferred (pre ++ v :: post)
  = match _inspect_varname_prefix v with
    | Some model_name => Some model_name
    | None => first_inferred post
    end.
Proof.
  induction pre as [|w pre IH]; intros H; [done|].
  simpl. rewrite (H w) by (by left). apply IH. intros u Hu. apply H. by right.
Qed.

(** ** [model_fn_ensemble] *)

Lemma append_assoc (a b c : string) : (a +:+ b) +:+ c = a +:+ b +:+ c.
Proof.
  induction a as [|x a IH]; [done|].
  rewrite !append_cons. by f_equal.
Qed.

Lemma append_eq_nil (a b : string) : a +:+ b = EmptyString -> b = EmptyString.
Proof. destruct a; [done|]. rewrite append_cons. discriminate. Qed.

Section Ensemble.

Variable GlobalNames : GlobalNamesT.
Variable ext : Collaborators.

#[local] Abbreviation scope := (ensemble_scope GlobalNames).
#[local] Abbreviation load_vars := (load_variables GlobalNames ext).

Lemma scoped_ensemble (index : nat) (var_name : string) :
  scoped_name (scope index) var_name
  = ENSEMBLE_VARNAME_PREFIX GlobalNames +:+ py_str index +:+ "/" +:+ var_name.
Proof.
  unfold scoped_name, ensemble_scope.
  destruct (String.eqb _ "") eqn:He.
  - apply String.eqb_eq, append_eq_nil in He.
    by destruct (py_str_nonempty index).
  - by rewrite append_assoc.
Qed.

(** Full names in the namespaces of checkpoints [i] and [j] agree only if
    the positions and the original names both agree. *)
Lemma scoped_ensemble_inj (i j : nat) (v w : string) :
  scoped_name (scope i) v = scoped_name (scope j) w ->
  i = j /\ v = w.
Proof.
  rewrite !scoped_ensemble. intros H%append_inj_l.
  apply slash_split_inj in H as [Hij ->]; auto using py_str_no_slash.
  split; [by apply py_str_inj|done].
Qed.

Lemma kept_names_cons (var_name : string) (shape : pyobj)
    (rest : list (string * pyobj)) :
  kept_names ((var_name, shape) :: rest) =
  if String.prefix "OptimizeLoss" var_name then kept_names rest
  else var_name :: kept_names rest.
Proof.
  unfold kept_names, is_optimizer_var. simpl.
  by destruct (String.prefix "OptimizeLoss" var_name).
Qed.

(** One turn of the loop on a variable that is not skipped. *)
Lemma load_variables_kept (model_dir : string) (index : nat)
    (var_name : string) (shape : pyobj) (rest : list (string * pyobj))
    (model_name : option string) (g : Graph) :
  String.prefix "OptimizeLoss" var_name = false ->
  load_vars model_dir index ((var_name, shape) :: rest) model_name g =
  match load_variable ext model_dir var_name with
  | inl e => (inl e, g)
  | inr var =>
      match variables g !! scoped_name (scope index) var_name with
      | Some _ => (inl (ValueError "Variable already exists, disallowed."), g)
      | None =>
          load_vars model_dir index rest
            match model_name with
            | None => _inspect_varname_prefix var_name
            | Some _ => model_name
            end
            {| collections := collections g;
               variables :=
                 <[scoped_name (scope index) var_name :=
                     (ndarray_shape ext var, var)]> (variables g) |}
      end
  end.
Proof.
  intros Hskip. simpl. rewrite Hskip. rewrite bind_liftR.
  destruct (load_variable ext model_dir var_name) as [e|var]; [done|].
  unfold mbind, M_bind, get_variable.
  by destruct (variables g !! scoped_name (scope index) var_name).
Qed.

Lemma load_variables_skipped (model_dir : string) (index : nat)
    (var_name : string) (shape : pyobj) (rest : list (string * pyobj))
    (model_name : option string) (g : Graph) :
  String.prefix "OptimizeLoss" var_name = true ->
  load_vars model_dir index ((var_name, shape) :: rest) model_name g =
  load_vars model_dir index rest model_name g.
Proof. intros Hskip. simpl. by rewrite Hskip. Qed.

(** Whatever the loop declares lies in the namespace of its position,
    comes from a variable that was not skipped and holds the value loaded
    for it; this is true of the graph the loop leaves behind, also when it
    raises. *)
Lemma load_variables_declared (model_dir : string) (index : nat)
    (vars : list (string * pyobj)) (model_name : option string) (g : Graph)
    (n : string) (x : pyobj * pyobj) :
  variables (snd (load_vars model_dir index vars model_name g)) !! n = Some x ->
  variables g !! n = Some x \/
  exists var_name var,
    In var_name (kept_names vars) /\
    load_variable ext model_dir var_name = inr var /\
    n = scoped_name (scope index) var_name /\
    x = (ndarray_shape ext var, var).
Proof.
  revert model_name g.
  induction vars as [|[var_name shape] rest IH]; intros model_name g.
  - simpl. auto.
  - rewrite kept_names_cons.
    destruct (String.prefix "OptimizeLoss" var_name) eqn:Hskip.
    + rewrite load_variables_skipped by done. apply IH.
    + rewrite load_variables_kept by done.
      destruct (load_variable ext model_dir var_name) as [e|var] eqn:Hload;
        [auto|].
      destruct (variables g !! scoped_name (scope index) var_name)
        eqn:Hfresh; [auto|].
      intros [H|(v & val & Hv & Hval & -> & ->)]%IH.
      * simpl in H. apply lookup_insert_Some in H as [[<- <-]|[_ H]]; [|auto].
        right. exists var_name, var. split; [by left|done].
      * right. exists v, val. split; [by right|done].
Qed.

(** A declared variable is never overwritten. *)
Lemma load_variables_keeps (model_dir : string) (index : nat)
    (vars : list (string * pyobj)) (model_name : option string) (g : Graph)
    (n : string) (x : pyobj * pyobj) :
  variables g !! n = Some x ->
  variables (snd (load_vars model_dir index vars model_name g)) !! n = Some x.
Proof.
  revert model_name g.
  induction vars as [|[var_name shape] rest IH]; intros model_name g Hn;
    [done|].
  destruct (String.prefix "OptimizeLoss" var_name) eqn:Hskip.
  - rewrite load_variables_skipped by done. by apply IH.
  - rewrite load_variables_kept by done.
    destruct (load_variable ext model_dir var_name) as [e|var]; [done|].
    destruct (variables g !! scoped_name (scope index) var_name)
      eqn:Hfresh; [done|].
    apply IH. simpl. rewrite lookup_insert_ne; [done|]. congruence.
Qed.

(** A loop that does not raise has declared every kept variable, with the
    value loaded for it. *)
Lemma load_variables_declares_all (model_dir : string) (index : nat)
    (vars : list (string * pyobj)) (model_name r : option string) (g : Graph)
    (var_name : string) :
  fst (load_vars model_dir index vars model_name g) = inr r ->
  In var_name (kept_names vars) ->
  exists var,
    load_variable ext model_dir var_name = inr var /\
    variables (snd (load_vars model_dir index vars model_name g))
      !! scoped_name (scope index) var_name
    = Some (ndarray_shape ext var, var).
Proof.
  revert model_name g.
  induction vars as [|[v shape] rest IH]; intros model_name g; [done|].
  rewrite kept_names_cons.
  destruct (String.prefix "OptimizeLoss" v) eqn:Hskip.
  - rewrite load_variables_skipped by done. apply IH.
  - rewrite load_variables_kept by done.
    destruct (load_variable ext model_dir v) as [e|var] eqn:Hload; [done|].
    destruct (variables g !! scoped_name (scope index) v) eqn:Hfresh; [done|].
    intros Hr [<-|Hin].
    + exists var. split; [done|]. apply load_variables_keeps. simpl.
      by rewrite lookup_insert_eq.
    + by apply IH.
Qed.

(** The name the loop ends with, when it does not raise: the one it
    started with, or else the first a kept variable yields. *)
Lemma load_variables_name (model_dir : string) (index : nat)
    (vars : list (string * pyobj)) (model_name r : option string) (g : Graph) :
  fst (load_vars model_dir index vars model_name g) = inr r ->
  r = match model_name with
      | None => first_inferred (kept_names vars)
      | Some _ => model_name
      end.
Proof.
  revert model_name g.
  induction vars as [|[var_name shape] rest IH]; intros model_name g.
  - simpl. intros [= <-]. by destruct model_name.
  - rewrite kept_names_cons.
    destruct (String.prefix "OptimizeLoss" var_name) eqn:Hskip.
    + rewrite load_variables_skipped by done. apply IH.
    + rewrite load_variables_kept by done.
      destruct (load_variable ext model_dir var_name) as [e|var]; [done|].
      destruct (variables g !! scoped_name (scope index) var_name);
        [done|].
      intros ->%IH. destruct model_name; [done|]. simpl.
      by destruct (_inspect_varname_prefix var_name).
Qed.

(** Skipped variables leave no trace: the loop runs as on the listing
    without them. *)
Lemma load_variables_filter (model_dir : string) (index : nat)
    (vars : list (string * pyobj)) (model_name : option string) (g : Graph) :
  load_vars model_dir index vars model_name g =
  load_vars model_dir index
    (List.filter (fun p => negb (is_optimizer_var (fst p))) vars) model_name g.
Proof.
  revert model_name g.
  induction vars as [|[var_name shape] rest IH]; intros model_name g; [done|].
  cbn [List.filter fst]. unfold is_optimizer_var at 1.
  destruct (String.prefix "OptimizeLoss" var_name) eqn:Hskip; cbn [negb].
  - rewrite load_variables_skipped by done. apply IH.
  - rewrite !load_variables_kept by done.
    destruct (load_variable ext model_dir var_name) as [e|var]; [done|].
    destruct (variables g !! scoped_name (scope index) var_name);
      [done|].
    apply IH.
Qed.

Lemma load_model_unfold (dataset : Dataset) (index : nat) (model_dir : string)
    (g : Graph) :
  load_model GlobalNames ext dataset index model_dir g =
  match list_variables ext model_dir with
  | inl e => (inl e, g)
  | inr vars =>
      (model_name ← fst (load_vars model_dir index vars None g);
       load_model_tail ext dataset model_dir model_name,
       snd (load_vars model_dir index vars None g))
  end.
Proof.
  unfold load_model. rewrite bind_liftR.
  destruct (list_variables ext model_dir) as [e|vars]; [done|].
  unfold mbind at 1, M_bind at 1.
  destruct (load_vars model_dir index vars None g) as [[e|model_name] g1];
    [done|].
  simpl. unfold load_model_tail. rewrite bind_liftR.
  destruct (py_assert _ _) as [e|[]]; [done|]. simpl.
  rewrite bind_liftR.
  destruct (ModelConfigs_load ext model_dir) as [e|model_configs]; [done|].
  simpl. rewrite bind_liftR.
  destruct (py_getitem model_configs "model") as [e|model_id]; [done|].
  simpl. rewrite bind_liftR.
  by destruct (py_getitem model_configs "model_params").
Qed.

Lemma load_models_cons (dataset : Dataset) (index : nat) (model_dir : string)
    (rest : list string) (models : list pyobj) (g : Graph) :
  load_models GlobalNames ext dataset index (model_dir :: rest) models g =
  match fst (load_model GlobalNames ext dataset index model_dir g) with
  | inl e => (inl e, snd (load_model GlobalNames ext dataset index model_dir g))
  | inr model =>
      load_models GlobalNames ext dataset (S index) rest (models ++ [model])
        (snd (load_model GlobalNames ext dataset index model_dir g))
  end.
Proof.
  simpl. unfold mbind at 1, M_bind at 1.
  by destruct (load_model _ _ _ _ _ _) as [[e|model] g1].
Qed.

Lemma model_fn_ensemble_unfold (model_dirs : list string) (dataset : Dataset)
    (weight_scheme inference_options : pyobj) (verbose : bool) (g : Graph) :
  model_fn_ensemble GlobalNames ext model_dirs dataset weight_scheme
                    inference_options verbose g =
  (models ← fst (load_models GlobalNames ext dataset 0 model_dirs [] g);
   predictions ← EnsembleModel_build ext weight_scheme inference_options
                   (input_fields dataset) models (vocab_target dataset);
   EstimatorSpec_new ModeKeys.INFER predictions PyNone PyNone PyNone PyNone,
   snd (load_models GlobalNames ext dataset 0 model_dirs [] g)).
Proof.
  unfold model_fn_ensemble. unfold mbind at 1, M_bind at 1.
  destruct (load_models _ _ _ _ _ _ _) as [[e|models] g1]; [done|]. simpl.
  rewrite bind_liftR.
  by destruct (EnsembleModel_build _ _ _ _ _ _).
Qed.

Lemma load_model_declared (dataset : Dataset) (index : nat)
    (model_dir : string) (g : Graph) (n : string) (x : pyobj * pyobj) :
  variables (snd (load_model GlobalNames ext dataset index model_dir g)) !! n
  = Some x ->
  variables g !! n = Some x \/
  exists vars var_name var,
    list_variables ext model_dir = inr vars /\
    In var_name (kept_names vars) /\
    load_variable ext model_dir var_name = inr var /\
    n = scoped_name (scope index) var_name /\
    x = (ndarray_shape ext var, var).
Proof.
  rewrite load_model_unfold.
  destruct (list_variables ext model_dir) as [e|vars]; [auto|]. simpl.
  intros [H|(v & val & H)]%load_variables_declared; [auto|].
  right. by exists vars, v, val.
Qed.

Lemma load_model_keeps (dataset : Dataset) (index : nat)
    (model_dir : string) (g : Graph) (n : string) (x : pyobj * pyobj) :
  variables g !! n = Some x ->
  variables (snd (load_model GlobalNames ext dataset index model_dir g)) !! n
  = Some x.
Proof.
  rewrite load_model_unfold.
  destruct (list_variables ext model_dir) as [e|vars]; [done|]. simpl.
  apply load_variables_keeps.
Qed.

Lemma load_model_declares_all (dataset : Dataset) (index : nat)
    (model_dir : string) (g : Graph) (model : pyobj)
    (vars : list (string * pyobj)) (var_name : string) :
  fst (load_model GlobalNames ext dataset index model_dir g) = inr model ->
  list_variables ext model_dir = inr vars ->
  In var_name (kept_names vars) ->
  exists var,
    load_variable ext model_dir var_name = inr var /\
    variables (snd (load_model GlobalNames ext dataset index model_dir g))
      !! scoped_name (scope index) var_name
    = Some (ndarray_shape ext var, var).
Proof.
  rewrite load_model_unfold. intros Hm Hvars. rewrite Hvars in *.
  simpl in *.
  destruct (fst (load_vars model_dir index vars None g)) as [e|r] eqn:Hr;
    [done|].
  by apply load_variables_declares_all with r.
Qed.

(** A checkpoint in which no kept variable yields a name stops the build:
    with the assertion of line 221 when the loop itself went through. *)
Lemma load_model_no_name (dataset : Dataset) (index : nat)
    (model_dir : string) (g : Graph) (vars : list (string * pyobj)) :
  list_variables ext model_dir = inr vars ->
  first_inferred (kept_names vars) = None ->
  match fst (load_vars model_dir index vars None g) with
  | inl e => fst (load_model GlobalNames ext dataset index model_dir g) = inl e
  | inr _ =>
      fst (load_model GlobalNames ext dataset index model_dir g)
      = inl (AssertionError "Fail to fetch model name")
  end.
Proof.
  intros Hvars Hnone. rewrite load_model_unfold, Hvars. simpl.
  destruct (fst (load_vars model_dir index vars None g)) as [e|r] eqn:Hr;
    [done|].
  apply load_variables_name in Hr. rewrite Hnone in Hr. by subst r.
Qed.

Lemma load_models_declared (dataset : Dataset) (model_dirs : list string)
    (index : nat) (models : list pyobj) (g : Graph)
    (n : string) (x : pyobj * pyobj) :
  variables (snd (load_models GlobalNames ext dataset index model_dirs models g))
    !! n = Some x ->
  variables g !! n = Some x \/
  exists k model_dir vars var_name var,
    model_dirs !! k = Some model_dir /\
    list_variables ext model_dir = inr vars /\
    In var_name (kept_names vars) /\
    load_variable ext model_dir var_name = inr var /\
    n = scoped_name (scope (index + k)) var_name /\
    x = (ndarray_shape ext var, var).
Proof.
  revert index models g.
  induction model_dirs as [|model_dir rest IH]; intros index models g.
  - simpl. auto.
  - rewrite load_models_cons.
    destruct (fst (load_model GlobalNames ext dataset index model_dir g))
      as [e|model]; simpl.
    + intros [H|(vars & v & val & H)]%load_model_declared; [auto|].
      right. exists 0, model_dir, vars, v, val.
      rewrite Nat.add_0_r. by split.
    + intros [H|(k & d & vars & v & val & Hk & H)]%IH.
      * apply load_model_declared in H as [H|(vars & v & val & H)]; [auto|].
        right. exists 0, model_dir, vars, v, val.
        rewrite Nat.add_0_r. by split.
      * right. exists (S k), d, vars, v, val.
        rewrite Nat.add_succ_r. by split.
Qed.

Lemma load_models_keeps (dataset : Dataset) (model_dirs : list string)
    (index : nat) (models : list pyobj) (g : Graph)
    (n : string) (x : pyobj * pyobj) :
  variables g !! n = Some x ->
  variables (snd (load_models GlobalNames ext dataset index model_dirs models g))
    !! n = Some x.
Proof.
  revert index models g.
  induction model_dirs as [|model_dir rest IH]; intros index models g Hn;
    [done|].
  rewrite load_models_cons.
  destruct (fst (load_model GlobalNames ext dataset index model_dir g))
    as [e|model]; simpl.
  - by apply load_model_keeps.
  - by apply IH, load_model_keeps.
Qed.

Lemma load_models_declares_all (dataset : Dataset) (model_dirs : list string)
    (index : nat) (models ms : list pyobj) (g : Graph)
    (k : nat) (model_dir : string) (vars : list (string * pyobj))
    (var_name : string) :
  fst (load_models GlobalNames ext dataset index model_dirs models g) = inr ms ->
  model_dirs !! k = Some model_dir ->
  list_variables ext model_dir = inr vars ->
  In var_name (kept_names vars) ->
  exists var,
    load_variable ext model_dir var_name = inr var /\
    variables (snd (load_models GlobalNames ext dataset index model_dirs
                      models g))
      !! scoped_name (scope (index + k)) var_name
    = Some (ndarray_shape ext var, var).
Proof.
  revert index models g k.
  induction model_dirs as [|d rest IH]; intros index models g k; [done|].
  rewrite load_models_cons.
  destruct (fst (load_model GlobalNames ext dataset index d g))
    as [e|model] eqn:Hm; [done|].
  intros Hms Hk Hvars Hin. destruct k as [|k]; simpl in Hk.
  - injection Hk as ->. rewrite Nat.add_0_r.
    destruct (load_model_declares_all dataset index model_dir g model vars
                var_name Hm Hvars Hin) as (var & Hload & Hvar).
    exists var. split; [done|]. by apply load_models_keeps.
  - rewrite Nat.add_succ_r. by eapply (IH (S index)).
Qed.

Lemma load_models_no_name (dataset : Dataset) (model_dirs : list string)
    (index : nat) (models : list pyobj) (g : Graph)
    (k : nat) (model_dir : string) (vars : list (string * pyobj)) :
  model_dirs !! k = Some model_dir ->
  list_variables ext model_dir = inr vars ->
  first_inferred (kept_names vars) = None ->
  exists e,
    fst (load_models GlobalNames ext dataset index model_dirs models g) = inl e.
Proof.
  revert index models g k.
  induction model_dirs as [|d rest IH]; intros index models g k; [done|].
  intros Hk Hvars Hnone. rewrite load_models_cons.
  destruct (fst (load_model GlobalNames ext dataset index d g))
    as [e|model] eqn:Hm; [by exists e|].
  destruct k as [|k]; simpl in Hk.
  - injection Hk as ->.
    pose proof (load_model_no_name dataset index model_dir g vars Hvars Hnone)
      as H.
    destruct (fst (load_vars model_dir index vars None g)); congruence.
  - by eapply IH.
Qed.

Lemma first_inferred_None (names : list string) :
  (forall v, In v names -> _inspect_varname_prefix v = None) ->
  first_inferred names = None.
Proof.
  induction names as [|v names IH]; intros H; [done|].
  simpl. rewrite (H v) by (by left). apply IH. intros w Hw. apply H. by right.
Qed.

Lemma kept_names_In (vars : list (string * pyobj)) (v : string) :
  In v (kept_names vars) <->
  In v (map fst vars) /\ is_optimizer_var v = false.
Proof.
  unfold kept_names. rewrite filter_In. by rewrite negb_true_iff.
Qed.

Lemma model_fn_ensemble_declared (model_dirs : list string)
    (dataset : Dataset) (weight_scheme inference_options : pyobj)
    (verbose : bool) (g : Graph) (n : string) :
  declared_between g
    (snd (model_fn_ensemble GlobalNames ext model_dirs dataset weight_scheme
            inference_options verbose g)) n ->
  exists k model_dir vars var_name var,
    model_dirs !! k = Some model_dir /\
    list_variables ext model_dir = inr vars /\
    In var_name (kept_names vars) /\
    load_variable ext model_dir var_name = inr var /\
    n = scoped_name (scope k) var_name /\
    variables (snd (model_fn_ensemble GlobalNames ext model_dirs dataset
                      weight_scheme inference_options verbose g)) !! n
    = Some (ndarray_shape ext var, var).
Proof.
  rewrite model_fn_ensemble_unfold. simpl. intros [Hg [x Hx]].
  destruct (load_models_declared _ _ _ _ _ _ _ Hx)
    as [H|(k & d & vars & v & val & Hk & Hvars & Hin & Hload & Hn & ->)];
    [congruence|].
  exists k, d, vars, v, val. done.
Qed.

(** C2 (amended): during ensemble load of each checkpoint directory, the
    model name is inferred from the first variable name, in listing order
    and among those not skipped as optimizer state, in which one of the
    markers "/input_symbol_modality" and "/symbol_modality_" is found (not
    necessarily the first variable): a name that reads scope, marker, rest
    yields the scope, the text before the first occurrence of the marker,
    with "/input_symbol_modality" tried first; a name holding neither
    marker yields nothing; for "scopeA/input_symbol_modality/weights" the
    name is "scopeA"; and if no kept variable of a checkpoint holds a
    marker the ensemble build raises, with the assertion "Fail to fetch
    model name" when the loading loop itself went through. *)
Theorem ensemble_model_name_inference :
  _inspect_varname_prefix "scopeA/input_symbol_modality/weights"
  = Some "scopeA" /\
  (forall scope rest,
     ~ occurs "/input_symbol_modality" scope ->
     _inspect_varname_prefix (scope +:+ "/input_symbol_modality" +:+ rest)
     = Some scope) /\
  (forall scope rest,
     ~ occurs "/symbol_modality_" scope ->
     ~ occurs "/input_symbol_modality"
         (scope +:+ "/symbol_modality_" +:+ rest) ->
     _inspect_varname_prefix (scope +:+ "/symbol_modality_" +:+ rest)
     = Some scope) /\
  (forall var_name,
     _inspect_varname_prefix var_name = None <->
     ~ occurs "/input_symbol_modality" var_name /\
     ~ occurs "/symbol_modality_" var_name) /\
  (forall var_name model_name,
     _inspect_varname_prefix var_name = Some model_name ->
     exists keywords post,
       (keywords = "/input_symbol_modality" \/
        keywords = "/symbol_modality_" /\
        py_in "/input_symbol_modality" var_name = false) /\
       var_name = model_name +:+ keywords +:+ post /\
       String.index 0 keywords var_name = Some (String.length model_name)) /\
  (forall model_dir index vars g model_name,
     fst (load_vars model_dir index vars None g) = inr model_name ->
     model_name = first_inferred (kept_names vars)) /\
  (forall model_dir index vars g model_name pre v post scope rest,
     fst (load_vars model_dir index vars None g) = inr model_name ->
     kept_names vars = pre ++ v :: post ->
     (forall w, In w pre ->
        ~ occurs "/input_symbol_modality" w /\
        ~ occurs "/symbol_modality_" w) ->
     (v = scope +:+ "/input_symbol_modality" +:+ rest /\
      ~ occurs "/input_symbol_modality" scope) \/
     (v = scope +:+ "/symbol_modality_" +:+ rest /\
      ~ occurs "/symbol_modality_" scope /\
      ~ occurs "/input_symbol_modality" v) ->
     model_name = Some scope) /\
  (forall dataset index model_dir vars g,
     list_variables ext model_dir = inr vars ->
     (forall v, In v (kept_names vars) ->
        ~ occurs "/input_symbol_modality" v /\
        ~ occurs "/symbol_modality_" v) ->
     forall model_name,
       fst (load_vars model_dir index vars None g) = inr model_name ->
       fst (load_model GlobalNames ext dataset index model_dir g)
       = inl (AssertionError "Fail to fetch model name")) /\
  (forall model_dirs dataset weight_scheme inference_options verbose g
          k model_dir vars,
     model_dirs !! k = Some model_dir ->
     list_variables ext model_dir = inr vars ->
     (forall v, In v (kept_names vars) ->
        ~ occurs "/input_symbol_modality" v /\
        ~ occurs "/symbol_modality_" v) ->
     exists e,
       fst (model_fn_ensemble GlobalNames ext model_dirs dataset weight_scheme
              inference_options verbose g) = inl e).
Proof.
  split; [reflexivity|].
  split; [apply inspect_first_marker|].
  split; [apply inspect_second_marker|].
  split; [apply inspect_None_occurs|].
  split; [apply _inspect_varname_prefix_Some|].
  split; [intros *; apply load_variables_name|].
  assert (Hnone : forall vars : list (string * pyobj),
             (forall v, In v (kept_names vars) ->
                ~ occurs "/input_symbol_modality" v /\
                ~ occurs "/symbol_modality_" v) ->
             first_inferred (kept_names vars) = None).
  { intros vars H. apply first_inferred_None.
    intros v Hv. by apply inspect_None_occurs, H. }
  split; [|split].
  - intros model_dir index vars g model_name pre v post scope rest
      Hr Hkept Hpre Hv.
    apply load_variables_name in Hr. rewrite Hr, Hkept.
    rewrite first_inferred_app
      by (intros w Hw; by apply inspect_None_occurs, Hpre).
    destruct Hv as [[-> Hscope]|(-> & Hscope & Hfirst)].
    + by rewrite inspect_first_marker.
    + by rewrite inspect_second_marker.
  - intros dataset index model_dir vars g Hvars Hno model_name Hr.
    pose proof (load_model_no_name dataset index model_dir g vars Hvars
                  (Hnone vars Hno)) as H.
    by rewrite Hr in H.
  - intros model_dirs dataset ws io verbose g k model_dir vars Hk Hvars Hno.
    rewrite model_fn_ensemble_unfold. simpl.
    destruct (load_models_no_name dataset model_dirs 0 [] g k model_dir vars
                Hk Hvars (Hnone vars Hno)) as [e ->].
    by exists e.
Qed.

(** C4: two distinct checkpoint positions have distinct namespaces, and
    full names in them never agree, whatever the original names, equal
    ones included; every
    variable that an ensemble build declares is named by the ensemble
    prefix, the decimal position of a checkpoint, "/" and the name of a kept
    variable of that checkpoint, and holds the value loaded from it; and a
    build that returns has declared, for each position, every kept variable
    of its checkpoint under that name. *)
Theorem ensemble_namespaces_disjoint :
  (forall i j, i <> j -> scope i <> scope j) /\
  (forall i j v w,
     i <> j ->
     scoped_name (scope i) v <> scoped_name (scope j) w) /\
  (forall model_dirs dataset weight_scheme inference_options verbose g n,
     let g' := snd (model_fn_ensemble GlobalNames ext model_dirs dataset
                      weight_scheme inference_options verbose g) in
     declared_between g g' n ->
     exists k model_dir vars var_name var,
       model_dirs !! k = Some model_dir /\
       list_variables ext model_dir = inr vars /\
       In var_name (kept_names vars) /\
       load_variable ext model_dir var_name = inr var /\
       n = ENSEMBLE_VARNAME_PREFIX GlobalNames +:+ py_str k +:+ "/"
           +:+ var_name /\
       variables g' !! n = Some (ndarray_shape ext var, var)) /\
  (forall model_dirs dataset weight_scheme inference_options verbose g spec
          k model_dir vars var_name,
     let run := model_fn_ensemble GlobalNames ext model_dirs dataset
                  weight_scheme inference_options verbose g in
     fst run = inr spec ->
     model_dirs !! k = Some model_dir ->
     list_variables ext model_dir = inr vars ->
     In var_name (kept_names vars) ->
     exists var,
       load_variable ext model_dir var_name = inr var /\
       variables (snd run)
         !! (ENSEMBLE_VARNAME_PREFIX GlobalNames +:+ py_str k +:+ "/"
             +:+ var_name)
       = Some (ndarray_shape ext var, var)).
Proof.
  split; [|split; [|split]].
  - intros i j Hij Heq.
    by apply (f_equal (fun s => scoped_name s EmptyString)),
             scoped_ensemble_inj in Heq as [? _].
  - intros i j v w Hij [? _]%scoped_ensemble_inj. done.
  - intros model_dirs dataset ws io verbose g n g' Hd. subst g'.
    destruct (model_fn_ensemble_declared _ _ _ _ _ _ _ Hd)
      as (k & d & vars & v & val & Hk & Hvars & Hin & Hload & Hn & Hx).
    exists k, d, vars, v, val. rewrite <- scoped_ensemble. done.
  - intros model_dirs dataset ws io verbose g spec k model_dir vars var_name
      run Hrun Hk Hvars Hin. subst run.
    rewrite model_fn_ensemble_unfold in *. simpl in *.
    destruct (fst (load_models GlobalNames ext dataset 0 model_dirs [] g))
      as [e|ms] eqn:Hms; [done|].
    rewrite <- scoped_ensemble.
    apply (load_models_declares_all dataset model_dirs 0 [] ms g k model_dir
             vars var_name Hms Hk Hvars Hin).
Qed.

(** C7: a variable whose name starts with "OptimizeLoss" is skipped by the
    loading loop, which runs exactly as on the listing without such
    variables, for the graph and for the inferred name alike; no ensemble
    build declares the full name of such a variable in any namespace; and
    the inferred name is the first that a kept variable yields. *)
Theorem optimizer_variables_not_reloaded :
  (forall model_dir index vars model_name g,
     load_vars model_dir index vars model_name g =
     load_vars model_dir index
       (List.filter (fun p => negb (is_optimizer_var (fst p))) vars)
       model_name g) /\
  (forall model_dirs dataset weight_scheme inference_options verbose g k v,
     is_optimizer_var v = true ->
     ~ declared_between g
         (snd (model_fn_ensemble GlobalNames ext model_dirs dataset
                 weight_scheme inference_options verbose g))
         (scoped_name (scope k) v)) /\
  (forall model_dir index vars g model_name,
     fst (load_vars model_dir index vars None g) = inr model_name ->
     model_name = first_inferred (kept_names vars) /\
     forall v, In v (kept_names vars) -> is_optimizer_var v = false).
Proof.
  split; [|split].
  - apply load_variables_filter.
  - intros model_dirs dataset ws io verbose g k v Hopt Hd.
    destruct (model_fn_ensemble_declared _ _ _ _ _ _ _ Hd)
      as (k' & d & vars & v' & val & _ & _ & Hin & _ & Hn & _).
    apply scoped_ensemble_inj in Hn as [_ <-].
    apply kept_names_In in Hin as [_ Hin]. congruence.
  - intros model_dir index vars g model_name Hr. split.
    + by apply load_variables_name in Hr.
    + by intros v [_ Hv]%kept_names_In.
Qed.

End Ensemble.

(** C2, as stated, fails: in a checkpoint that lists an Adam slot, the step
    counter and then the embedding weights, matching the first variable
    name gives "OptimizeLoss/scopeA", and the first name that is not
    skipped gives nothing, yet the loop infers "scopeA", from the third
    variable, and the model is created. *)
Lemma inferred_name_not_from_first_variable :
  let vars :=
    [("OptimizeLoss/scopeA/input_symbol_modality/weights/Adam", PyTuple []);
     ("global_step", PyTuple []);
     ("scopeA/input_symbol_modality/weights", PyTuple []);
     ("scopeA/decoder/bias", PyTuple [])] in
  list_variables sample_ext "dirA" = inr vars /\
  _inspect_varname_prefix
    "OptimizeLoss/scopeA/input_symbol_modality/weights/Adam"
  = Some "OptimizeLoss/scopeA" /\
  _inspect_varname_prefix "global_step" = None /\
  fst (load_variables sample_names sample_ext "dirA" 0 vars None empty_graph)
  = inr (Some "scopeA") /\
  fst (load_model sample_names sample_ext sample_dataset 0 "dirA" empty_graph)
  = inr (PyObj 20).
Proof. repeat split. Qed.

(** A scope under the second marker; the listing of "dirA", whose first
    kept name holds no marker, yields "scopeA"; "dirC" has no marker and
    stops the build. *)
Lemma ensemble_model_name_inference_witness :
  _inspect_varname_prefix "m/symbol_modality_/emb" = Some "m" /\
  (exists model_name,
     fst (load_variables sample_names sample_ext "dirA" 0
            [("OptimizeLoss/scopeA/input_symbol_modality/weights/Adam",
              PyTuple []);
             ("global_step", PyTuple []);
             ("scopeA/input_symbol_modality/weights", PyTuple []);
             ("scopeA/decoder/bias", PyTuple [])] None empty_graph)
     = inr model_name /\
     model_name = Some "scopeA") /\
  fst (load_model sample_names sample_ext sample_dataset 1 "dirC" empty_graph)
  = inl (AssertionError "Fail to fetch model name") /\
  exists e,
    fst (model_fn_ensemble sample_names sample_ext ["dirA"; "dirC"]
           sample_dataset PyNone PyNone true empty_graph) = inl e.
Proof.
  destruct (ensemble_model_name_inference sample_names sample_ext)
    as (_ & _ & Hsecond & _ & _ & _ & Hloop & Hassert & Habort).
  assert (Hfree : forall k v, py_in k v = false -> ~ occurs k v).
  { intros k v. apply py_in_not_occurs. }
  assert (Hno : forall v,
             In v (kept_names [("global_step", PyTuple []);
                               ("dense/kernel", PyTuple [])]) ->
             ~ occurs "/input_symbol_modality" v /\
             ~ occurs "/symbol_modality_" v).
  { intros v [<-|[<-|[]]]; split; by apply Hfree. }
  split; [|split; [|split]].
  - apply (Hsecond "m" "/emb"); by apply Hfree.
  - exists (Some "scopeA"). split; [reflexivity|].
    apply (Hloop "dirA" 0
             [("OptimizeLoss/scopeA/input_symbol_modality/weights/Adam",
               PyTuple []);
              ("global_step", PyTuple []);
              ("scopeA/input_symbol_modality/weights", PyTuple []);
              ("scopeA/decoder/bias", PyTuple [])]
             empty_graph (Some "scopeA") ["global_step"]
             "scopeA/input_symbol_modality/weights" ["scopeA/decoder/bias"]
             "scopeA" "/weights" eq_refl eq_refl).
    + intros w [<-|[]]. split; by apply Hfree.
    + left. split; [reflexivity|by apply Hfree].
  - apply (Hassert sample_dataset 1 "dirC" _ empty_graph eq_refl Hno None).
    reflexivity.
  - apply (Habort ["dirA"; "dirC"] sample_dataset PyNone PyNone true
             empty_graph 1 "dirC" _ eq_refl eq_refl Hno).
Defined.

(** "dirA" and "dirB" hold variables of the same names; both copies are
    declared, one per namespace. *)
Lemma ensemble_namespaces_disjoint_witness :
  let run := model_fn_ensemble sample_names sample_ext ["dirA"; "dirB"]
               sample_dataset PyNone PyNone true empty_graph in
  "ensemble0/scopeA/decoder/bias" <> "ensemble1/scopeA/decoder/bias" /\
  (exists var,
     variables (snd run) !! "ensemble0/scopeA/decoder/bias"
     = Some (PyTuple [], var)) /\
  (exists var,
     variables (snd run) !! "ensemble1/scopeA/decoder/bias"
     = Some (PyTuple [], var)) /\
  exists k model_dir,
    ["dirA"; "dirB"] !! k = Some model_dir /\
    exists vars, list_variables sample_ext model_dir = inr vars /\
                 In "global_step" (kept_names vars).
Proof.
  intros run.
  destruct (ensemble_namespaces_disjoint sample_names sample_ext)
    as (_ & Hne & Hfrom & Hall).
  split; [|split; [|split]].
  - apply (Hne 0 1 "scopeA/decoder/bias" "scopeA/decoder/bias"). discriminate.
  - destruct (Hall ["dirA"; "dirB"] sample_dataset PyNone PyNone true
                empty_graph _ 0 "dirA" _ "scopeA/decoder/bias"
                eq_refl eq_refl eq_refl) as (var & _ & Hvar).
    { right. right. left. reflexivity. }
    exists var. exact Hvar.
  - destruct (Hall ["dirA"; "dirB"] sample_dataset PyNone PyNone true
                empty_graph _ 1 "dirB" _ "scopeA/decoder/bias"
                eq_refl eq_refl eq_refl) as (var & _ & Hvar).
    { right. left. reflexivity. }
    exists var. exact Hvar.
  - destruct (Hfrom ["dirA"; "dirB"] sample_dataset PyNone PyNone true
                empty_graph "ensemble0/global_step")
      as (k & d & vars & v & var & Hk & Hvars & Hin & _ & Hn & _).
    { split; [reflexivity|]. vm_compute. eauto. }
    apply (append_inj_l "ensemble") in Hn.
    apply (slash_split_inj "0" (py_str k) "global_step" v eq_refl
             (py_str_no_slash k)) in Hn as [_ <-].
    exists k, d. split; [exact Hk|]. exists vars. split; assumption.
Defined.

(** The Adam slot of "dirA" is not declared and does not name the model. *)
Lemma optimizer_variables_not_reloaded_witness :
  ~ declared_between empty_graph
      (snd (model_fn_ensemble sample_names sample_ext ["dirA"; "dirB"]
              sample_dataset PyNone PyNone true empty_graph))
      "ensemble0/OptimizeLoss/scopeA/input_symbol_modality/weights/Adam" /\
  first_inferred
    (kept_names
       [("OptimizeLoss/scopeA/input_symbol_modality/weights/Adam", PyTuple []);
        ("global_step", PyTuple []);
        ("scopeA/input_symbol_modality/weights", PyTuple []);
        ("scopeA/decoder/bias", PyTuple [])])
  = Some "scopeA".
Proof.
  destruct (optimizer_variables_not_reloaded sample_names sample_ext)
    as (_ & Hnot & Hname).
  split.
  - apply (Hnot ["dirA"; "dirB"] sample_dataset PyNone PyNone true empty_graph
             0 "OptimizeLoss/scopeA/input_symbol_modality/weights/Adam").
    reflexivity.
  - symmetry. apply (Hname "dirA" 0 _ empty_graph). reflexivity.
Defined.

(** * Further properties *)

(** ** [_inspect_varname_prefix]: cutting and rebuilding names *)

Lemma prefix_truncated (k s : string) (n : nat) :
  String.prefix k (substring 0 n s) = true -> String.prefix k s = true.
Proof.
  revert s n. induction k as [|c k IH]; intros s n.
  - by destruct s.
  - destruct s as [|d s]; [by destruct n|].
    destruct n as [|n]; [done|]. simpl.
    destruct (ascii_dec c d); [apply IH|done].
Qed.

(** A pattern absent from a text is absent from its beginnings. *)
Lemma index_truncated (k s : string) (n : nat) :
  k <> EmptyString ->
  String.index 0 k s = None -> String.index 0 k (substring 0 n s) = None.
Proof.
  intros Hk. revert n. induction s as [|c s IH]; intros n Hs.
  - destruct n; by destruct k.
  - destruct n as [|n]; [by destruct k|].
    rewrite index_cons in Hs.
    destruct (String.prefix k (String c s)) eqn:Hp; [done|].
    destruct (String.index 0 k s) eqn:Hi; [done|].
    change (substring 0 (S n) (String c s))
      with (String c (substring 0 n s)).
    rewrite index_cons, IH by done.
    destruct (String.prefix k (String c (substring 0 n s))) eqn:Hp'; [|done].
    apply (prefix_truncated k (String c s) (S n)) in Hp'. congruence.
Qed.

(** What precedes the first occurrence holds no occurrence. *)
Lemma index_before (k s : string) (i : nat) :
  k <> EmptyString ->
  String.index 0 k s = Some i -> String.index 0 k (substring 0 i s) = None.
Proof.
  intros Hk. revert i. induction s as [|c s IH]; intros i.
  - by destruct k.
  - rewrite index_cons.
    destruct (String.prefix k (String c s)) eqn:Hp.
    + intros [= <-]. by destruct k.
    + destruct (String.index 0 k s) as [n|] eqn:Hi; [|done].
      intros [= <-].
      change (substring 0 (S n) (String c s))
        with (String c (substring 0 n s)).
      rewrite index_cons, IH by done.
      destruct (String.prefix k (String c (substring 0 n s))) eqn:Hp'; [|done].
      apply (prefix_truncated k (String c s) (S n)) in Hp'. congruence.
Qed.

(** X1: a variable name built as scope, marker, rest gives the scope back:
    with "/input_symbol_modality" whenever the scope does not hold that
    marker itself; with "/symbol_modality_" whenever the scope does not
    hold it and the whole name is free of "/input_symbol_modality", which
    would be tried first. *)
Theorem inspect_varname_prefix_round_trip (scope rest : string) :
  (py_in "/input_symbol_modality" scope = false ->
   _inspect_varname_prefix (scope +:+ "/input_symbol_modality" +:+ rest)
   = Some scope) /\
  (py_in "/symbol_modality_" scope = false ->
   py_in "/input_symbol_modality" (scope +:+ "/symbol_modality_" +:+ rest)
   = false ->
   _inspect_varname_prefix (scope +:+ "/symbol_modality_" +:+ rest)
   = Some scope).
Proof.
  unfold _inspect_varname_prefix, py_in, prefix_before. split.
  - intros Hscope.
    destruct (String.index 0 "/input_symbol_modality" scope) eqn:Hi; [done|].
    rewrite (index_marker_append "input_symbol_modality" scope rest eq_refl Hi).
    by rewrite substring_append_length.
  - intros Hscope Hfirst.
    destruct (String.index 0 "/input_symbol_modality"
                (scope +:+ "/symbol_modality_" +:+ rest)); [done|].
    destruct (String.index 0 "/symbol_modality_" scope) eqn:Hi; [done|].
    rewrite (index_marker_append "symbol_modality_" scope rest eq_refl Hi).
    by rewrite substring_append_length.
Qed.

(** A nested scope under the first marker; a scope under the second. *)
Lemma inspect_varname_prefix_round_trip_witness :
  _inspect_varname_prefix "nmt/encoder/input_symbol_modality/emb/weights"
  = Some "nmt/encoder" /\
  _inspect_varname_prefix "m/symbol_modality_/emb" = Some "m".
Proof.
  split.
  - apply (proj1 (inspect_varname_prefix_round_trip "nmt/encoder"
                    "/emb/weights")).
    reflexivity.
  - apply (proj2 (inspect_varname_prefix_round_trip "m" "/emb"));
      reflexivity.
Defined.

(** X2: the inferred name holds no occurrence of the marker it was cut
    at, and no occurrence of "/input_symbol_modality" in any case; so a
    name cut at "/symbol_modality_" yields nothing when inspected again. *)
Theorem inspect_varname_prefix_result_free (var_name model_name : string) :
  _inspect_varname_prefix var_name = Some model_name ->
  py_in "/input_symbol_modality" model_name = false /\
  (py_in "/input_symbol_modality" var_name = false ->
   py_in "/symbol_modality_" model_name = false /\
   _inspect_varname_prefix model_name = None).
Proof.
  unfold _inspect_varname_prefix, py_in, prefix_before.
  destruct (String.index 0 "/input_symbol_modality" var_name) as [i|] eqn:H1.
  - intros [= <-]. rewrite (index_before "/input_symbol_modality" _ _ ltac:(discriminate) H1).
    split; [done|discriminate].
  - destruct (String.index 0 "/symbol_modality_" var_name) as [j|] eqn:H2;
      [|done].
    intros [= <-].
    rewrite (index_truncated "/input_symbol_modality" _ j
               ltac:(discriminate) H1).
    rewrite (index_before "/symbol_modality_" _ _ ltac:(discriminate) H2). by repeat split.
Qed.

Lemma inspect_varname_prefix_result_free_witness :
  py_in "/input_symbol_modality" "a/symbol_modality_x" = false /\
  _inspect_varname_prefix "m" = None.
Proof.
  split.
  - apply (inspect_varname_prefix_result_free
             "a/symbol_modality_x/input_symbol_modality/w"
             "a/symbol_modality_x" eq_refl).
  - apply (inspect_varname_prefix_result_free
             "m/symbol_modality_/emb" "m" eq_refl).
    reflexivity.
Defined.

(** ** [EstimatorSpec.__new__]: which error, and when none *)

Lemma is_None_true (x : pyobj) : is_None x = true <-> x = PyNone.
Proof. by destruct x. Qed.

Lemma is_None_false (x : pyobj) : is_None x = false <-> x <> PyNone.
Proof. by destruct x. Qed.

Lemma py_iter_inl (x : pyobj) (e : exn) :
  py_iter x = inl e -> e = TypeError "object is not iterable" x.
Proof. destruct x; intros H; inversion H; reflexivity. Qed.

Lemma hook_items_inl (x : pyobj) (e : exn) :
  hook_items x = inl e -> e = TypeError "object is not iterable" x.
Proof.
  unfold hook_items, py_or. destruct (py_truthy x); [apply py_iter_inl|done].
Qed.

(** The loop stops at the first object that is not a hook. *)
Lemma check_hooks_first_bad (pre post : list pyobj) (bad : pyobj) :
  forallb isinstance_SessionRunHook pre = true ->
  isinstance_SessionRunHook bad = false ->
  check_hooks (pre ++ bad :: post) = inl (TypeError hooks_TypeError_msg bad).
Proof.
  intros Hpre Hbad. induction pre as [|x pre IH]; simpl in *.
  - by rewrite Hbad.
  - apply andb_prop in Hpre as [-> Hpre]. simpl. auto.
Qed.

Lemma check_hooks_inl (hooks : list pyobj) (e : exn) :
  check_hooks hooks = inl e ->
  exists bad, e = TypeError hooks_TypeError_msg bad.
Proof.
  induction hooks as [|x hooks IH]; simpl; [done|].
  destruct (isinstance_SessionRunHook x); simpl; [done|].
  intros [= <-]. eauto.
Qed.

(** With the required fields present, what is left can only raise
    [TypeError]. *)
Lemma EstimatorSpec_new_present_inl (mode : string)
    (predictions loss train_op chief hooks : pyobj) (e : exn) :
  spec_required_present mode predictions loss train_op = true ->
  EstimatorSpec_new mode predictions loss train_op chief hooks = inl e ->
  exists msg given, e = TypeError msg given.
Proof.
  intros Hreq. rewrite EstimatorSpec_new_present by done.
  destruct (hook_items chief) as [e1|cs] eqn:Hcs; simpl.
  { intros [= <-]. apply hook_items_inl in Hcs. eauto. }
  destruct (hook_items hooks) as [e2|hs] eqn:Hhs; simpl.
  { intros [= <-]. apply hook_items_inl in Hhs. eauto. }
  destruct (check_hooks (hs ++ cs)) as [e3|[]] eqn:Hck; simpl; [|done].
  intros [= <-]. apply check_hooks_inl in Hck as [bad ->]. eauto.
Qed.

(** X3: construction raises [ValueError] in exactly three cases, checked in
    this order: "Missing predictions" for INFER without predictions;
    "Missing loss." for TRAIN or EVAL without loss, also when TRAIN lacks
    [train_op] too; "Missing train_op." for TRAIN with a loss but without
    [train_op]. *)
Theorem EstimatorSpec_new_ValueError_cases (mode : string)
    (predictions0 loss0 train_op0 chief hooks : pyobj) (msg : string) :
  EstimatorSpec_new mode predictions0 loss0 train_op0 chief hooks
  = inl (ValueError msg) <->
  (msg = "Missing predictions" /\ predictions0 = PyNone /\
   mode = ModeKeys.INFER) \/
  (msg = "Missing loss." /\ loss0 = PyNone /\
   (mode = ModeKeys.TRAIN \/ mode = ModeKeys.EVAL)) \/
  (msg = "Missing train_op." /\ train_op0 = PyNone /\
   mode = ModeKeys.TRAIN /\ loss0 <> PyNone).
Proof.
  split.
  - destruct (spec_required_present mode predictions0 loss0 train_op0)
      eqn:Hreq.
    { intros He. by destruct (EstimatorSpec_new_present_inl _ _ _ _ _ _ _
                                Hreq He) as (? & ? & ?). }
    clear Hreq. unfold EstimatorSpec_new.
    destruct (is_None predictions0) eqn:Hp;
      destruct (String.eqb_spec mode ModeKeys.INFER) as [Hi|Hi];
      destruct (is_None loss0) eqn:Hl;
      destruct (String.eqb_spec mode ModeKeys.TRAIN) as [Ht|Ht];
      destruct (String.eqb_spec mode ModeKeys.EVAL) as [He|He];
      destruct (is_None train_op0) eqn:Hop; simpl;
      rewrite ?is_None_true, ?is_None_false in *;
      try (intros [= <-]; by eauto 10);
      try (subst mode; discriminate).
    all: intros H; exfalso; revert H; rewrite !py_tuple_hook_items;
      destruct (hook_items chief) as [e1|cs] eqn:Hcs; simpl;
      [intros [= ->]; by apply hook_items_inl in Hcs|];
      destruct (hook_items hooks) as [e2|hs] eqn:Hhs; simpl;
      [intros [= ->]; by apply hook_items_inl in Hhs|];
      destruct (check_hooks _) as [e3|[]] eqn:Hck; simpl; [|done];
      intros [= ->]; by apply check_hooks_inl in Hck as [? ?].
  - intros [(-> & -> & ->)|[(-> & -> & [->| ->])|(-> & -> & -> & Hl)]];
      try reflexivity.
    + by destruct predictions0.
    + by destruct predictions0.
    + apply (proj2 (is_None_false _)) in Hl. unfold EstimatorSpec_new.
      rewrite Hl. simpl. by rewrite andb_false_r.
Qed.

(** TRAIN with nothing but predictions reports the loss, not the
    [train_op]. *)
Lemma EstimatorSpec_new_ValueError_cases_witness :
  EstimatorSpec_new ModeKeys.TRAIN (PyObj 0) PyNone PyNone PyNone PyNone
  = inl (ValueError "Missing loss.") /\
  EstimatorSpec_new ModeKeys.TRAIN (PyObj 0) (PyObj 1) PyNone PyNone PyNone
  = inl (ValueError "Missing train_op.").
Proof.
  split.
  - apply (proj2 (EstimatorSpec_new_ValueError_cases ModeKeys.TRAIN
                    (PyObj 0) PyNone PyNone PyNone PyNone "Missing loss.")).
    right. left. repeat split. left. reflexivity.
  - apply (proj2 (EstimatorSpec_new_ValueError_cases ModeKeys.TRAIN
                    (PyObj 0) (PyObj 1) PyNone PyNone PyNone
                    "Missing train_op.")).
    right. right. repeat split. discriminate.
Defined.

(** X4: the constructor does not validate the mode itself: for a mode
    other than TRAIN, EVAL and INFER nothing is required, so no
    [ValueError] is ever raised and even the call with no argument besides
    the mode returns a record. *)
Theorem EstimatorSpec_new_unknown_mode (mode : string) :
  mode <> ModeKeys.TRAIN -> mode <> ModeKeys.EVAL -> mode <> ModeKeys.INFER ->
  (forall predictions0 loss0 train_op0 chief hooks msg,
     EstimatorSpec_new mode predictions0 loss0 train_op0 chief hooks
     <> inl (ValueError msg)) /\
  EstimatorSpec_new mode PyNone PyNone PyNone PyNone PyNone
  = inr {| predictions := PyNone; loss := PyNone; train_op := PyNone;
           training_chief_hooks := PyTuple [];
           training_hooks := PyTuple [] |}.
Proof.
  intros Ht He Hi.
  assert (Hreq : forall p l t, spec_required_present mode p l t = true).
  { intros p l t. unfold spec_required_present.
    apply String.eqb_neq in Ht, He, Hi. by rewrite Ht, He, Hi. }
  split.
  - intros p l t chief hooks msg H.
    by destruct (EstimatorSpec_new_present_inl _ _ _ _ _ _ _ (Hreq p l t) H)
      as (? & ? & ?).
  - by rewrite EstimatorSpec_new_present.
Qed.

Lemma EstimatorSpec_new_unknown_mode_witness :
  EstimatorSpec_new "predict" PyNone PyNone PyNone PyNone PyNone
  = inr {| predictions := PyNone; loss := PyNone; train_op := PyNone;
           training_chief_hooks := PyTuple [];
           training_hooks := PyTuple [] |}.
Proof.
  apply (EstimatorSpec_new_unknown_mode "predict"); discriminate.
Defined.

(** X5: with the required fields present, the [TypeError] names the first
    object that is not a hook in the order [training_hooks] then
    [training_chief_hooks]: a bad object of [training_hooks] is reported
    whatever the chief hooks hold, and a bad chief hook only when all of
    [training_hooks] are hooks. *)
Theorem EstimatorSpec_new_first_bad_hook (mode : string)
    (predictions0 loss0 train_op0 chief hooks : pyobj)
    (cs hs pre post : list pyobj) (bad : pyobj) :
  spec_required_present mode predictions0 loss0 train_op0 = true ->
  hook_items chief = inr cs -> hook_items hooks = inr hs ->
  forallb isinstance_SessionRunHook pre = true ->
  isinstance_SessionRunHook bad = false ->
  (hs = pre ++ bad :: post \/
   forallb isinstance_SessionRunHook hs = true /\ cs = pre ++ bad :: post) ->
  EstimatorSpec_new mode predictions0 loss0 train_op0 chief hooks
  = inl (TypeError hooks_TypeError_msg bad).
Proof.
  intros Hreq Hcs Hhs Hpre Hbad Hwhere.
  rewrite EstimatorSpec_new_present by done. rewrite Hcs, Hhs. simpl.
  destruct Hwhere as [->|[Hall ->]].
  - rewrite <- app_assoc. simpl. by rewrite check_hooks_first_bad.
  - rewrite app_assoc. rewrite check_hooks_first_bad; [done| |done].
    rewrite forallb_app. by rewrite Hall, Hpre.
Qed.

(** Both sequences end in a bad object; the one of [training_hooks] is
    named. *)
Lemma EstimatorSpec_new_first_bad_hook_witness :
  EstimatorSpec_new ModeKeys.EVAL PyNone (PyObj 0) PyNone
                    (PyList [PyObj 8]) (PyList [PyHook 1; PyObj 9])
  = inl (TypeError hooks_TypeError_msg (PyObj 9)).
Proof.
  apply (EstimatorSpec_new_first_bad_hook ModeKeys.EVAL PyNone (PyObj 0)
           PyNone (PyList [PyObj 8]) (PyList [PyHook 1; PyObj 9])
           [PyObj 8] [PyHook 1; PyObj 9] [PyHook 1] [] (PyObj 9));
    try reflexivity.
  left. reflexivity.
Defined.

(** X6: a hook argument that is falsy, be it [None], an empty list, tuple,
    dict or string, counts as no hooks: with the required fields present
    and both hook arguments falsy, construction returns the record with two
    empty tuples. *)
Theorem EstimatorSpec_new_falsy_hooks (mode : string)
    (predictions0 loss0 train_op0 chief hooks : pyobj) :
  spec_required_present mode predictions0 loss0 train_op0 = true ->
  py_truthy chief = false -> py_truthy hooks = false ->
  EstimatorSpec_new mode predictions0 loss0 train_op0 chief hooks
  = inr {| predictions := predictions0; loss := loss0; train_op := train_op0;
           training_chief_hooks := PyTuple [];
           training_hooks := PyTuple [] |}.
Proof.
  intros Hreq Hc Hh. rewrite EstimatorSpec_new_present by done.
  unfold hook_items, py_or. by rewrite Hc, Hh.
Qed.

Lemma EstimatorSpec_new_falsy_hooks_witness :
  EstimatorSpec_new ModeKeys.INFER (PyDict [("ids", PyObj 0)]) PyNone PyNone
                    (PyDict []) (PyStr "")
  = inr {| predictions := PyDict [("ids", PyObj 0)]; loss := PyNone;
           train_op := PyNone;
           training_chief_hooks := PyTuple [];
           training_hooks := PyTuple [] |}.
Proof.
  apply (EstimatorSpec_new_falsy_hooks ModeKeys.INFER); reflexivity.
Defined.

(** X7: a hook passed bare instead of inside a collection is refused: with
    the required fields present, a single hook object as
    [training_chief_hooks] raises the [TypeError] of [tuple] whatever
    [training_hooks] is, and as [training_hooks] it does so as soon as the
    chief argument is iterable, even when that one holds bad objects. *)
Theorem EstimatorSpec_new_bare_hook (mode : string)
    (predictions0 loss0 train_op0 other : pyobj) (id : nat) :
  spec_required_present mode predictions0 loss0 train_op0 = true ->
  EstimatorSpec_new mode predictions0 loss0 train_op0 (PyHook id) other
  = inl (TypeError "object is not iterable" (PyHook id)) /\
  (forall cs, hook_items other = inr cs ->
     EstimatorSpec_new mode predictions0 loss0 train_op0 other (PyHook id)
     = inl (TypeError "object is not iterable" (PyHook id))).
Proof.
  intros Hreq. rewrite !EstimatorSpec_new_present by done. split; [done|].
  intros cs ->. done.
Qed.

Lemma EstimatorSpec_new_bare_hook_witness :
  EstimatorSpec_new ModeKeys.TRAIN PyNone (PyObj 0) (PyObj 1)
                    (PyList [PyObj 7]) (PyHook 2)
  = inl (TypeError "object is not iterable" (PyHook 2)).
Proof.
  apply (proj2 (EstimatorSpec_new_bare_hook ModeKeys.TRAIN PyNone (PyObj 0)
                  (PyObj 1) (PyList [PyObj 7]) 2 eq_refl) [PyObj 7]).
  reflexivity.
Defined.

(** ** [model_fn]: names, missing keys, modes *)

Lemma split_dot_nonempty (s : string) : split_dot s <> [].
Proof.
  induction s as [|c s IH]; simpl; [done|].
  destruct (Ascii.eqb c "."); [done|]. by destruct (split_dot s).
Qed.

Lemma split_dot_no_dot (s : string) : no_dot s = true -> split_dot s = [s].
Proof.
  induction s as [|c s IH]; simpl; [done|].
  intros [Hc Hs]%andb_prop. apply negb_true_iff in Hc. rewrite Hc.
  by rewrite IH.
Qed.

Lemma split_dot_append_length (pkg cls : string) :
  2 <= length (split_dot (pkg +:+ "." +:+ cls)).
Proof.
  induction pkg as [|c pkg IH].
  - rewrite append_nil, append_cons. simpl.
    pose proof (split_dot_nonempty (EmptyString +:+ cls)) as H.
    destruct (split_dot (EmptyString +:+ cls)); [done|simpl; lia].
  - rewrite append_cons. simpl. destruct (Ascii.eqb c ".").
    + simpl. lia.
    + destruct (split_dot (pkg +:+ "." +:+ cls)); simpl in *; lia.
Qed.

(** The last component of a dotted identifier is what follows the last
    dot. *)
Lemma split_dot_last_component (pkg cls : string) :
  no_dot cls = true ->
  List.last (split_dot (pkg +:+ "." +:+ cls)) EmptyString = cls.
Proof.
  intros Hcls. induction pkg as [|c pkg IH].
  - rewrite append_nil, append_cons.
    change (split_dot (String "." (EmptyString +:+ cls)))
      with (EmptyString :: split_dot cls).
    by rewrite split_dot_no_dot.
  - rewrite append_cons.
    pose proof (split_dot_append_length pkg cls) as Hlen.
    simpl. destruct (Ascii.eqb c ".").
    + destruct (split_dot (pkg +:+ "." +:+ cls)) eqn:Hs; [simpl in Hlen; lia|].
      exact IH.
    + destruct (split_dot (pkg +:+ "." +:+ cls)) as [|w [|w' ws]] eqn:Hs;
        [simpl in Hlen; lia|simpl in Hlen; lia|].
      exact IH.
Qed.

Section ModelFnMore.

Variable GlobalNames : GlobalNamesT.
Variable ext : Collaborators.

(** X8: the name the model is created under is the [name] argument when
    that is truthy; when it is [None] or empty it is the part of the
    configured model identifier after its last dot, or the whole identifier
    when it has no dot. *)
Theorem model_fn_model_name (model_configs : pyobj) (mode : string)
    (dataset : Dataset) (name reuse : pyobj) (verbose : bool)
    (model_name model_output : pyobj) :
  model_fn_build ext model_configs mode dataset name reuse verbose
  = inr (model_name, model_output) ->
  (py_truthy name = true -> model_name = name) /\
  (py_truthy name = false ->
   forall id, py_getitem model_configs "model" = inr (PyStr id) ->
     (no_dot id = true -> model_name = PyStr id) /\
     (forall pkg cls, id = pkg +:+ "." +:+ cls -> no_dot cls = true ->
                      model_name = PyStr cls)) /\
  exists model_id model_params model,
    py_getitem model_configs "model" = inr model_id /\
    py_getitem model_configs "model_params" = inr model_params /\
    new_model ext model_id model_params mode (vocab_source dataset)
              (vocab_target dataset) model_name verbose = inr model /\
    model_build ext model (input_fields dataset) reuse = inr model_output.
Proof.
  unfold model_fn_build.
  destruct (py_truthy name) eqn:Hname.
  - simpl.
    destruct (py_getitem model_configs "model") as [e|id] eqn:Hid; [done|].
    simpl.
    destruct (py_getitem model_configs "model_params") as [e|ps] eqn:Hps;
      [done|].
    simpl.
    destruct (new_model ext id ps mode _ _ name verbose) as [e|m] eqn:Hm;
      [done|].
    simpl.
    destruct (model_build ext m _ reuse) as [e|out] eqn:Hout; [done|].
    simpl. intros [= <- <-].
    split; [done|]. split; [done|]. by exists id, ps, m.
  - destruct (py_getitem model_configs "model") as [e|id] eqn:Hid; [done|].
    simpl.
    destruct (split_dot_last id) as [e|n] eqn:Hn; [done|]. simpl.
    destruct (py_getitem model_configs "model_params") as [e|ps] eqn:Hps;
      [done|].
    simpl.
    destruct (new_model ext id ps mode _ _ n verbose) as [e|m] eqn:Hm;
      [done|].
    simpl.
    destruct (model_build ext m _ reuse) as [e|out] eqn:Hout; [done|].
    simpl. intros [= <- <-].
    split; [done|]. split; [|by exists id, ps, m].
    intros _ id' [= ->]. simpl in Hn. injection Hn as <-. split.
    + intros Hid'. by rewrite split_dot_no_dot.
    + intros pkg cls -> Hcls. by rewrite split_dot_last_component.
Qed.

(** X9: a configuration without the key "model" makes every call raise
    [KeyError], in any mode and also when a name is given, before any
    collaborator is consulted and without a write to the graph. *)
Theorem model_fn_missing_model_key (kv : list (string * pyobj))
    (mode : string) (dataset : Dataset) (name reuse : pyobj)
    (distributed_mode is_chief verbose : bool) (g : Graph) :
  assoc "model" kv = None ->
  model_fn GlobalNames ext (PyDict kv) mode dataset name reuse
           distributed_mode is_chief verbose g
  = (inl (KeyError "model"), g).
Proof.
  intros Hkv. rewrite model_fn_unfold. unfold model_fn_build. simpl.
  rewrite Hkv. by destruct (py_truthy name).
Qed.

(** X10: a TRAIN call on a configuration without "optimizer_params"
    raises [KeyError], but only after the loss was registered: the two
    display collections have grown although the call failed. *)
Theorem model_fn_missing_optimizer_params (kv : list (string * pyobj))
    (dataset : Dataset) (name reuse : pyobj)
    (distributed_mode is_chief verbose : bool) (g : Graph)
    (model_name model_output x : pyobj) :
  model_fn_build ext (PyDict kv) ModeKeys.TRAIN dataset name reuse verbose
  = inr (model_name, model_output) ->
  py_getitem0 model_output = inr x ->
  assoc "optimizer_params" kv = None ->
  model_fn GlobalNames ext (PyDict kv) ModeKeys.TRAIN dataset name reuse
           distributed_mode is_chief verbose g
  = (inl (KeyError "optimizer_params"), registered GlobalNames x g).
Proof.
  intros Hbuild Hx Hkv. rewrite model_fn_unfold, Hbuild. simpl.
  rewrite model_fn_train_unfold, Hx. unfold train_tail. simpl.
  by rewrite Hkv.
Qed.

(** X11: a mode other than TRAIN, EVAL and INFER never yields a record:
    the model is still created and built, then the assertion of line 175
    fails, and the graph is not written to. *)
Theorem model_fn_unsupported_mode (model_configs : pyobj) (mode : string)
    (dataset : Dataset) (name reuse : pyobj)
    (distributed_mode is_chief verbose : bool) (g : Graph) :
  mode <> ModeKeys.TRAIN -> mode <> ModeKeys.EVAL -> mode <> ModeKeys.INFER ->
  let run := model_fn GlobalNames ext model_configs mode dataset name reuse
                      distributed_mode is_chief verbose g in
  (forall spec, fst run <> inr spec) /\
  snd run = g /\
  (forall model_name model_output,
     model_fn_build ext model_configs mode dataset name reuse verbose
     = inr (model_name, model_output) ->
     fst run = inl (AssertionError "")).
Proof.
  intros Ht He Hi run. subst run. rewrite model_fn_unfold.
  apply String.eqb_neq in Ht, He, Hi. rewrite Ht, He.
  destruct (model_fn_build _ _ _ _ _ _ _) as [e|[n out]]; [done|].
  rewrite model_fn_infer_unfold, Hi. simpl. repeat split; try done.
Qed.

(** X12: what the build output makes of an EVAL or INFER call, and of the
    start of a TRAIN call: an empty tuple or list has no first element, so
    TRAIN and EVAL raise [IndexError] with nothing registered; a first
    element that is [None] makes EVAL raise "Missing loss."; an output that
    is [None] makes INFER raise "Missing predictions". *)
Theorem model_fn_degenerate_output (model_configs : pyobj) (mode : string)
    (dataset : Dataset) (name reuse : pyobj)
    (distributed_mode is_chief verbose : bool) (g : Graph)
    (model_name model_output : pyobj) :
  model_fn_build ext model_configs mode dataset name reuse verbose
  = inr (model_name, model_output) ->
  let run := model_fn GlobalNames ext model_configs mode dataset name reuse
                      distributed_mode is_chief verbose g in
  (mode = ModeKeys.TRAIN \/ mode = ModeKeys.EVAL ->
   model_output = PyTuple [] \/ model_output = PyList [] ->
   run = (inl (IndexError "index out of range"), g)) /\
  (mode = ModeKeys.EVAL -> py_getitem0 model_output = inr PyNone ->
   run = (inl (ValueError "Missing loss."), g)) /\
  (mode = ModeKeys.INFER -> model_output = PyNone ->
   run = (inl (ValueError "Missing predictions"), g)).
Proof.
  intros Hbuild run. subst run. rewrite model_fn_unfold, Hbuild.
  split; [|split].
  - intros [->| ->] [->| ->]; simpl;
      by rewrite ?model_fn_train_unfold, ?model_fn_eval_unfold.
  - intros -> Hx. simpl. by rewrite model_fn_eval_unfold, Hx.
  - intros -> ->. simpl. by rewrite model_fn_infer_unfold.
Qed.

(** X13: a TRAIN call returns a record exactly when the build gives an
    output whose first element is a loss other than [None], the
    configuration has "optimizer_params", [optimize] gives a [train_op]
    other than [None], [build_hooks] gives a list, [build_eval_metrics]
    something iterable, and all of their objects are hooks; the record and
    the graph are then determined. *)
Theorem model_fn_train_returns_iff (model_configs : pyobj)
    (dataset : Dataset) (name reuse : pyobj)
    (distributed_mode is_chief verbose : bool) (g g' : Graph)
    (spec : EstimatorSpec) :
  model_fn GlobalNames ext model_configs ModeKeys.TRAIN dataset name reuse
           distributed_mode is_chief verbose g = (inr spec, g') <->
  exists model_name model_output x op t hs m ms,
    model_fn_build ext model_configs ModeKeys.TRAIN dataset name reuse verbose
    = inr (model_name, model_output) /\
    py_getitem0 model_output = inr x /\ x <> PyNone /\
    py_getitem model_configs "optimizer_params" = inr op /\
    optimize ext x op = inr t /\ t <> PyNone /\
    build_hooks ext model_configs distributed_mode is_chief
    = inr (PyList hs) /\
    build_eval_metrics ext model_configs dataset is_chief model_name = inr m /\
    py_iter m = inr ms /\
    forallb isinstance_SessionRunHook (hs ++ ms) = true /\
    spec = {| predictions := PyNone; loss := x; train_op := t;
              training_chief_hooks := PyTuple [];
              training_hooks := PyTuple (hs ++ ms) |} /\
    g' = registered GlobalNames x g.
Proof.
  rewrite model_fn_unfold. split.
  - destruct (model_fn_build _ _ _ _ _ _ _) as [e|[n out]] eqn:Hb; [done|].
    simpl. rewrite model_fn_train_unfold.
    destruct (py_getitem0 out) as [e|x] eqn:Hx0; [done|].
    intros [= Htail <-]. apply train_tail_inr in Htail.
    destruct Htail
      as (op & t & hs & m & ms & Hop & Ht & Hh & Hm & Hms & Hall & Hreq & ->).
    unfold spec_required_present in Hreq. simpl in Hreq.
    apply andb_prop in Hreq as [Hx Htn].
    apply negb_true_iff, is_None_false in Hx, Htn.
    exists n, out, x, op, t, hs, m, ms. repeat split; done.
  - intros (n & out & x & op & t & hs & m & ms & -> & Hx & Hxn & Hop & Ht
            & Htn & Hh & Hm & Hms & Hall & -> & ->).
    simpl. rewrite model_fn_train_unfold, Hx. f_equal.
    apply train_tail_inr. exists op, t, hs, m, ms.
    repeat split; try done.
    unfold spec_required_present. simpl.
    apply is_None_false in Hxn, Htn. by rewrite Hxn, Htn.
Qed.

(** X14: an EVAL call returns a record exactly when the build gives an
    output whose first element is not [None], an INFER call exactly when
    the build gives an output that is not [None]; neither writes to the
    graph. *)
Theorem model_fn_eval_infer_returns_iff (model_configs : pyobj)
    (dataset : Dataset) (name reuse : pyobj)
    (distributed_mode is_chief verbose : bool) (g g' : Graph)
    (spec : EstimatorSpec) :
  (model_fn GlobalNames ext model_configs ModeKeys.EVAL dataset name reuse
            distributed_mode is_chief verbose g = (inr spec, g') <->
   exists model_name model_output,
     model_fn_build ext model_configs ModeKeys.EVAL dataset name reuse verbose
     = inr (model_name, model_output) /\
     py_getitem0 model_output = inr (loss spec) /\ loss spec <> PyNone /\
     spec = {| predictions := PyNone; loss := loss spec; train_op := PyNone;
               training_chief_hooks := PyTuple [];
               training_hooks := PyTuple [] |} /\
     g' = g) /\
  (model_fn GlobalNames ext model_configs ModeKeys.INFER dataset name reuse
            distributed_mode is_chief verbose g = (inr spec, g') <->
   exists model_name model_output,
     model_fn_build ext model_configs ModeKeys.INFER dataset name reuse verbose
     = inr (model_name, model_output) /\
     model_output <> PyNone /\
     spec = {| predictions := model_output; loss := PyNone;
               train_op := PyNone;
               training_chief_hooks := PyTuple [];
               training_hooks := PyTuple [] |} /\
     g' = g).
Proof.
  rewrite !model_fn_unfold. split; split.
  - destruct (model_fn_build _ _ _ _ _ _ _) as [e|[n out]] eqn:Hb; [done|].
    simpl. rewrite model_fn_eval_unfold.
    destruct (py_getitem0 out) as [e|x] eqn:Hx0; [done|]. simpl.
    intros [= Hnew <-]. destruct x; try discriminate Hnew;
      injection Hnew as <-; exists n, out; by repeat split.
  - intros (n & out & -> & Hx & Hxn & Hspec & ->). simpl.
    rewrite model_fn_eval_unfold, Hx. simpl. rewrite Hspec. f_equal.
    by destruct (loss spec).
  - destruct (model_fn_build _ _ _ _ _ _ _) as [e|[n out]] eqn:Hb; [done|].
    simpl. rewrite model_fn_infer_unfold. simpl.
    intros [= Hnew <-]. destruct out; try discriminate Hnew;
      injection Hnew as <-; exists n; eexists; by repeat split.
  - intros (n & out & -> & Hout & -> & ->). simpl.
    rewrite model_fn_infer_unfold. simpl. f_equal. by destruct out.
Qed.

(** X15: when everything else about a TRAIN call is in order, an object
    among the hooks of [build_hooks] and [build_eval_metrics] that is not
    a [SessionRunHook] makes the call raise the [TypeError] of
    [EstimatorSpec], naming the first such object, after the loss was
    registered. *)
Theorem model_fn_train_bad_hook (model_configs : pyobj)
    (dataset : Dataset) (name reuse : pyobj)
    (distributed_mode is_chief verbose : bool) (g : Graph)
    (model_name model_output x op t m bad : pyobj)
    (hs ms pre post : list pyobj) :
  model_fn_build ext model_configs ModeKeys.TRAIN dataset name reuse verbose
  = inr (model_name, model_output) ->
  py_getitem0 model_output = inr x -> x <> PyNone ->
  py_getitem model_configs "optimizer_params" = inr op ->
  optimize ext x op = inr t -> t <> PyNone ->
  build_hooks ext model_configs distributed_mode is_chief = inr (PyList hs) ->
  build_eval_metrics ext model_configs dataset is_chief model_name = inr m ->
  py_iter m = inr ms ->
  hs ++ ms = pre ++ bad :: post ->
  forallb isinstance_SessionRunHook pre = true ->
  isinstance_SessionRunHook bad = false ->
  model_fn GlobalNames ext model_configs ModeKeys.TRAIN dataset name reuse
           distributed_mode is_chief verbose g
  = (inl (TypeError hooks_TypeError_msg bad), registered GlobalNames x g).
Proof.
  intros Hbuild Hx Hxn Hop Ht Htn Hh Hm Hms Hsplit Hpre Hbad.
  rewrite model_fn_unfold, Hbuild. simpl.
  rewrite model_fn_train_unfold, Hx. f_equal.
  unfold train_tail. rewrite Hop. simpl. rewrite Ht. simpl.
  rewrite Hh. simpl. rewrite Hm. simpl. rewrite Hms. simpl.
  rewrite EstimatorSpec_new_present.
  - rewrite hook_items_None, hook_items_list. simpl.
    by rewrite app_nil_r, Hsplit, check_hooks_first_bad.
  - unfold spec_required_present. simpl.
    apply is_None_false in Hxn, Htn. by rewrite Hxn, Htn.
Qed.

End ModelFnMore.

(** X16: outside TRAIN mode the training collaborators and the display
    names play no part: two environments that create and build models
    alike give the same outcome and graph, whatever [optimize],
    [build_hooks] and [build_eval_metrics] would do. *)
Theorem model_fn_ignores_training_collaborators
    (names names' : GlobalNamesT) (ext ext' : Collaborators)
    (model_configs : pyobj) (mode : string)
    (dataset : Dataset) (name reuse : pyobj)
    (distributed_mode is_chief verbose : bool) (g : Graph) :
  mode <> ModeKeys.TRAIN ->
  (forall id params m vs vt n v,
     new_model ext id params m vs vt n v = new_model ext' id params m vs vt n v) ->
  (forall model fields r,
     model_build ext model fields r = model_build ext' model fields r) ->
  model_fn names ext model_configs mode dataset name reuse
           distributed_mode is_chief verbose g
  = model_fn names' ext' model_configs mode dataset name reuse
             distributed_mode is_chief verbose g.
Proof.
  intros Hmode Hnew Hbuild. rewrite !model_fn_unfold.
  apply String.eqb_neq in Hmode. rewrite Hmode.
  assert (model_fn_build ext model_configs mode dataset name reuse verbose
          = model_fn_build ext' model_configs mode dataset name reuse verbose)
    as ->; [|done].
  unfold model_fn_build.
  destruct (if py_truthy name then _ else _) as [e|n]; [done|]. simpl.
  destruct (py_getitem model_configs "model") as [e|id]; [done|]. simpl.
  destruct (py_getitem model_configs "model_params") as [e|ps]; [done|].
  simpl. rewrite Hnew.
  destruct (new_model ext' _ _ _ _ _ _ _) as [e|m]; [done|]. simpl.
  by rewrite Hbuild.
Qed.

(** No name is given; the sample configuration names the model
    "njunmt.models.SequenceToSequence". *)
Lemma model_fn_model_name_witness :
  exists model_name model_output,
    model_fn_build sample_ext sample_configs ModeKeys.EVAL sample_dataset
                   PyNone PyNone true = inr (model_name, model_output) /\
    model_name = PyStr "SequenceToSequence".
Proof.
  exists (PyStr "SequenceToSequence"), (PyTuple [PyObj 1; PyObj 2]).
  split; [reflexivity|].
  destruct (model_fn_model_name sample_ext sample_configs ModeKeys.EVAL
              sample_dataset PyNone PyNone true _ _ eq_refl)
    as (_ & Hdefault & _).
  apply (proj2 (Hdefault eq_refl _ eq_refl) "njunmt.models"
           "SequenceToSequence"); reflexivity.
Defined.

Lemma model_fn_missing_model_key_witness :
  model_fn sample_names sample_ext (PyDict [("model_params", PyDict [])])
           ModeKeys.INFER sample_dataset (PyStr "nmt") PyNone false true true
           empty_graph
  = (inl (KeyError "model"), empty_graph).
Proof.
  apply (model_fn_missing_model_key sample_names sample_ext). reflexivity.
Defined.

Lemma model_fn_missing_optimizer_params_witness :
  let run :=
    model_fn sample_names sample_ext
      (PyDict [("model", PyStr "njunmt.models.SequenceToSequence");
               ("model_params", PyDict [])])
      ModeKeys.TRAIN sample_dataset PyNone PyNone false true true
      empty_graph in
  fst run = inl (KeyError "optimizer_params") /\
  get_collection "display_values" (snd run) = [PyObj 1].
Proof.
  intros run.
  pose proof (model_fn_missing_optimizer_params sample_names sample_ext
                [("model", PyStr "njunmt.models.SequenceToSequence");
                 ("model_params", PyDict [])]
                sample_dataset PyNone PyNone false true true empty_graph
                _ _ (PyObj 1) eq_refl eq_refl eq_refl) as H.
  fold run in H. rewrite H. split; reflexivity.
Defined.

Lemma model_fn_unsupported_mode_witness :
  model_fn sample_names sample_ext sample_configs "predict" sample_dataset
           PyNone PyNone false true true empty_graph
  = (inl (AssertionError ""), empty_graph).
Proof.
  destruct (model_fn_unsupported_mode sample_names sample_ext sample_configs
              "predict" sample_dataset PyNone PyNone false true true
              empty_graph) as (_ & Hg & He); try discriminate.
  apply injective_projections; [|exact Hg].
  apply (He (PyStr "SequenceToSequence") (PyTuple [PyObj 1; PyObj 2])).
  reflexivity.
Defined.

Lemma model_fn_degenerate_output_witness :
  model_fn sample_names sample_ext_empty_output sample_configs ModeKeys.TRAIN
           sample_dataset PyNone PyNone false true true empty_graph
  = (inl (IndexError "index out of range"), empty_graph).
Proof.
  apply (proj1 (model_fn_degenerate_output sample_names
                  sample_ext_empty_output sample_configs ModeKeys.TRAIN
                  sample_dataset PyNone PyNone false true true empty_graph
                  _ _ eq_refl)); left; reflexivity.
Defined.

Lemma model_fn_train_returns_iff_witness :
  model_fn sample_names sample_ext sample_configs ModeKeys.TRAIN
           sample_dataset PyNone PyNone false true true empty_graph
  = (inr {| predictions := PyNone; loss := PyObj 1; train_op := PyObj 3;
            training_chief_hooks := PyTuple [];
            training_hooks := PyTuple ([PyHook 1] ++ [PyHook 2]) |},
     registered sample_names (PyObj 1) empty_graph).
Proof.
  apply (proj2 (model_fn_train_returns_iff sample_names sample_ext
                  sample_configs sample_dataset PyNone PyNone false true true
                  empty_graph _ _)).
  exists (PyStr "SequenceToSequence"), (PyTuple [PyObj 1; PyObj 2]),
    (PyObj 1), (PyDict []), (PyObj 3), [PyHook 1], (PyList [PyHook 2]),
    [PyHook 2].
  repeat split; discriminate.
Defined.

Lemma model_fn_eval_infer_returns_iff_witness :
  model_fn sample_names sample_ext sample_configs ModeKeys.INFER
           sample_dataset PyNone PyNone false true true empty_graph
  = (inr {| predictions := PyTuple [PyObj 1; PyObj 2]; loss := PyNone;
            train_op := PyNone;
            training_chief_hooks := PyTuple [];
            training_hooks := PyTuple [] |}, empty_graph).
Proof.
  apply (proj2 (proj2 (model_fn_eval_infer_returns_iff sample_names
                         sample_ext sample_configs sample_dataset PyNone
                         PyNone false true true empty_graph _ _))).
  exists (PyStr "SequenceToSequence"), (PyTuple [PyObj 1; PyObj 2]).
  repeat split. discriminate.
Defined.

Lemma model_fn_train_bad_hook_witness :
  model_fn sample_names sample_ext_bad_metric sample_configs ModeKeys.TRAIN
           sample_dataset PyNone PyNone false true true empty_graph
  = (inl (TypeError hooks_TypeError_msg (PyObj 5)),
     registered sample_names (PyObj 1) empty_graph).
Proof.
  apply (model_fn_train_bad_hook sample_names sample_ext_bad_metric
           sample_configs sample_dataset PyNone PyNone false true true
           empty_graph (PyStr "SequenceToSequence")
           (PyTuple [PyObj 1; PyObj 2]) (PyObj 1) (PyDict []) (PyObj 3)
           (PyList [PyHook 2; PyObj 5]) (PyObj 5)
           [PyHook 1] [PyHook 2; PyObj 5] [PyHook 1; PyHook 2] []);
    reflexivity || discriminate.
Defined.

Lemma model_fn_ignores_training_collaborators_witness :
  model_fn sample_names sample_ext_no_training sample_configs ModeKeys.EVAL
           sample_dataset PyNone PyNone false true true empty_graph
  = model_fn sample_names sample_ext sample_configs ModeKeys.EVAL
             sample_dataset PyNone PyNone false true true empty_graph.
Proof.
  apply (model_fn_ignores_training_collaborators sample_names sample_names
           sample_ext_no_training sample_ext); [discriminate|reflexivity..].
Defined.

(** ** [model_fn_ensemble]: what a build leaves in the graph *)

Section EnsembleMore.

Variable GlobalNames : GlobalNamesT.
Variable ext : Collaborators.

#[local] Abbreviation scope_at := (ensemble_scope GlobalNames).
#[local] Abbreviation load_vars_at := (load_variables GlobalNames ext).
#[local] Abbreviation ensemble := (model_fn_ensemble GlobalNames ext).

(** X17: an ensemble build, returning or raising, keeps every variable
    that was already declared, with its value, and leaves alone every
    variable name that does not start with the ensemble prefix: such a name
    is declared afterwards exactly if it was before. *)
Theorem model_fn_ensemble_frame (model_dirs : list string)
    (dataset : Dataset) (weight_scheme inference_options : pyobj)
    (verbose : bool) (g : Graph) :
  let g' := snd (ensemble model_dirs dataset weight_scheme inference_options
                          verbose g) in
  (forall n x, variables g !! n = Some x -> variables g' !! n = Some x) /\
  (forall n, String.prefix (ENSEMBLE_VARNAME_PREFIX GlobalNames) n = false ->
             variables g' !! n = variables g !! n).
Proof.
  intros g'. subst g'. rewrite model_fn_ensemble_unfold. simpl.
  split; [intros n x; apply load_models_keeps|].
  intros n Hn.
  destruct (variables g !! n) as [x|] eqn:Hg.
  { by apply load_models_keeps. }
  destruct (variables (snd (load_models _ _ _ _ _ _ _)) !! n) as [x|] eqn:Hg';
    [|done].
  apply load_models_declared in Hg'
    as [Hg'|(k & d & vars & v & val & _ & _ & _ & _ & -> & _)];
    [congruence|].
  rewrite scoped_ensemble, prefix_append in Hn. done.
Qed.

Lemma load_model_inr (dataset : Dataset) (index : nat) (model_dir : string)
    (g : Graph) (model : pyobj) :
  fst (load_model GlobalNames ext dataset index model_dir g) = inr model ->
  reloaded_model ext dataset model_dir model.
Proof.
  rewrite load_model_unfold.
  destruct (list_variables ext model_dir) as [e|vars] eqn:Hvars; [done|].
  simpl.
  destruct (fst (load_vars_at model_dir index vars None g)) as [e|nm] eqn:Hnm;
    [done|].
  simpl. apply load_variables_name in Hnm. unfold load_model_tail.
  destruct nm as [name|]; [|done]. simpl.
  destruct (String.eqb_spec name EmptyString) as [->|Hname]; [done|]. simpl.
  destruct (ModelConfigs_load ext model_dir) as [e|cfg] eqn:Hcfg; [done|].
  simpl.
  destruct (py_getitem cfg "model") as [e|id] eqn:Hid; [done|]. simpl.
  destruct (py_getitem cfg "model_params") as [e|ps] eqn:Hps; [done|]. simpl.
  intros Hm. exists vars, name, cfg, id, ps. by repeat split.
Qed.

Lemma load_models_inr (dataset : Dataset) (model_dirs : list string)
    (index : nat) (models out : list pyobj) (g : Graph) :
  fst (load_models GlobalNames ext dataset index model_dirs models g)
  = inr out ->
  exists new, out = models ++ new /\
              Forall2 (reloaded_model ext dataset) model_dirs new.
Proof.
  revert index models g.
  induction model_dirs as [|d rest IH]; intros index models g.
  - simpl. intros [= <-]. exists []. by rewrite app_nil_r.
  - rewrite load_models_cons.
    destruct (fst (load_model GlobalNames ext dataset index d g))
      as [e|m] eqn:Hm; [done|].
    intros (new & -> & Hnew)%IH. exists (m :: new).
    rewrite <- app_assoc. split; [done|].
    constructor; [by eapply load_model_inr|done].
Qed.

(** X18: an ensemble build that returns has created one model per
    checkpoint directory, in the order of the directories, each from its
    directory's configuration in INFER mode and under the name inferred
    there; these models, in that order, are what the aggregator was given,
    and the record holds its output, which is not [None], as predictions
    and nothing else. *)
Theorem model_fn_ensemble_returns (model_dirs : list string)
    (dataset : Dataset) (weight_scheme inference_options : pyobj)
    (verbose : bool) (g : Graph) (spec : EstimatorSpec) :
  fst (ensemble model_dirs dataset weight_scheme inference_options verbose g)
  = inr spec ->
  exists models,
    Forall2 (reloaded_model ext dataset) model_dirs models /\
    EnsembleModel_build ext weight_scheme inference_options
      (input_fields dataset) models (vocab_target dataset)
    = inr (predictions spec) /\
    predictions spec <> PyNone /\
    spec = {| predictions := predictions spec; loss := PyNone;
              train_op := PyNone;
              training_chief_hooks := PyTuple [];
              training_hooks := PyTuple [] |}.
Proof.
  rewrite model_fn_ensemble_unfold. simpl.
  destruct (fst (load_models _ _ _ _ _ _ _)) as [e|models] eqn:Hms; [done|].
  simpl. apply load_models_inr in Hms as (new & -> & Hnew).
  destruct (EnsembleModel_build _ _ _ _ _ _) as [e|preds] eqn:Hp; [done|].
  simpl. intros Hspec. exists new.
  destruct preds; try discriminate Hspec; injection Hspec as <-;
    by repeat split.
Qed.

(** Declaring again what is declared is refused at the first kept
    variable. *)
Lemma load_variables_redeclare (model_dir : string) (index : nat)
    (vars : list (string * pyobj)) (model_name : option string) (g : Graph)
    (v : string) (others : list string) (var : pyobj) :
  kept_names vars = v :: others ->
  load_variable ext model_dir v = inr var ->
  is_Some (variables g !! scoped_name (scope_at index) v) ->
  load_vars_at model_dir index vars model_name g
  = (inl (ValueError "Variable already exists, disallowed."), g).
Proof.
  intros Hkept Hload [x Hx].
  induction vars as [|[w shape] rest IH]; [done|].
  rewrite kept_names_cons in Hkept.
  destruct (String.prefix "OptimizeLoss" w) eqn:Hskip.
  - rewrite load_variables_skipped by done. by apply IH.
  - injection Hkept as -> _.
    rewrite load_variables_kept by done. by rewrite Hload, Hx.
Qed.

(** X19: an ensemble build cannot be repeated in the same graph: after a
    build over at least one directory has returned, the same call on the
    graph it left raises the "already exists" [ValueError] at the first
    kept variable of the first checkpoint. *)
Theorem model_fn_ensemble_not_repeatable (model_dirs : list string)
    (dataset : Dataset) (weight_scheme inference_options : pyobj)
    (verbose : bool) (g : Graph) (spec : EstimatorSpec) :
  model_dirs <> [] ->
  let run := ensemble model_dirs dataset weight_scheme inference_options
                      verbose in
  fst (run g) = inr spec ->
  run (snd (run g))
  = (inl (ValueError "Variable already exists, disallowed."), snd (run g)).
Proof.
  intros Hdirs run Hrun. subst run.
  destruct model_dirs as [|d rest]; [done|].
  rewrite (model_fn_ensemble_unfold _ _ (d :: rest)) in Hrun.
  cbn [fst] in Hrun.
  destruct (fst (load_models GlobalNames ext dataset 0 (d :: rest) [] g))
    as [e|ms] eqn:Hms; [done|].
  pose proof Hms as Hms'. rewrite load_models_cons in Hms'.
  destruct (fst (load_model GlobalNames ext dataset 0 d g)) as [e|m] eqn:Hm;
    [done|].
  destruct (load_model_inr _ _ _ _ _ Hm)
    as (vars & name & _ & _ & _ & Hvars & Hname & _).
  destruct (kept_names vars) as [|v others] eqn:Hkept; [done|].
  destruct (load_models_declares_all GlobalNames ext dataset (d :: rest) 0 []
              ms g 0 d vars v Hms eq_refl Hvars)
    as (var & Hload & Hvar).
  { rewrite Hkept. by left. }
  set (g' := snd (ensemble (d :: rest) dataset weight_scheme
                           inference_options verbose g)).
  assert (Hg' : is_Some (variables g' !! scoped_name (scope_at 0) v)).
  { subst g'. rewrite model_fn_ensemble_unfold. cbn [snd]. eauto. }
  rewrite (model_fn_ensemble_unfold _ _ (d :: rest) _ _ _ _ g').
  rewrite load_models_cons, load_model_unfold, Hvars.
  rewrite (load_variables_redeclare d 0 vars None g' v others var
             Hkept Hload Hg').
  reflexivity.
Qed.

Lemma load_model_not_truthy (dataset : Dataset) (index : nat)
    (model_dir : string) (g : Graph) (vars : list (string * pyobj)) :
  list_variables ext model_dir = inr vars ->
  name_truthy (first_inferred (kept_names vars)) = false ->
  match fst (load_vars_at model_dir index vars None g) with
  | inl e => fst (load_model GlobalNames ext dataset index model_dir g) = inl e
  | inr _ =>
      fst (load_model GlobalNames ext dataset index model_dir g)
      = inl (AssertionError "Fail to fetch model name")
  end.
Proof.
  intros Hvars Hname. rewrite load_model_unfold, Hvars. simpl.
  destruct (fst (load_vars_at model_dir index vars None g)) as [e|r] eqn:Hr;
    [done|].
  apply load_variables_name in Hr. subst r. simpl.
  unfold load_model_tail. by rewrite Hname.
Qed.

Lemma load_models_not_truthy (dataset : Dataset) (model_dirs : list string)
    (index : nat) (models : list pyobj) (g : Graph)
    (k : nat) (model_dir : string) (vars : list (string * pyobj)) :
  model_dirs !! k = Some model_dir ->
  list_variables ext model_dir = inr vars ->
  name_truthy (first_inferred (kept_names vars)) = false ->
  exists e,
    fst (load_models GlobalNames ext dataset index model_dirs models g) = inl e.
Proof.
  revert index models g k.
  induction model_dirs as [|d rest IH]; intros index models g k; [done|].
  intros Hk Hvars Hname. rewrite load_models_cons.
  destruct (fst (load_model GlobalNames ext dataset index d g))
    as [e|model] eqn:Hm; [by exists e|].
  destruct k as [|k]; simpl in Hk.
  - injection Hk as ->.
    pose proof (load_model_not_truthy dataset index model_dir g vars Hvars
                  Hname) as H.
    destruct (fst (load_vars_at model_dir index vars None g)); congruence.
  - by eapply IH.
Qed.

(** X20: a checkpoint whose first kept variable starts with the marker
    "/input_symbol_modality" has the empty inferred name; since an empty
    name is not [None], no later variable is consulted, the assertion of
    line 221 fails for that checkpoint and the whole build raises, even
    when a later variable would have yielded a proper name. *)
Theorem ensemble_empty_model_name (model_dirs : list string)
    (dataset : Dataset) (weight_scheme inference_options : pyobj)
    (verbose : bool) (g : Graph)
    (k : nat) (model_dir : string) (vars : list (string * pyobj))
    (tail : string) (others : list string) :
  model_dirs !! k = Some model_dir ->
  list_variables ext model_dir = inr vars ->
  kept_names vars = ("/input_symbol_modality" +:+ tail) :: others ->
  first_inferred (kept_names vars) = Some EmptyString /\
  (forall index g0 model_name,
     fst (load_vars_at model_dir index vars None g0) = inr model_name ->
     fst (load_model GlobalNames ext dataset index model_dir g0)
     = inl (AssertionError "Fail to fetch model name")) /\
  exists e,
    fst (ensemble model_dirs dataset weight_scheme inference_options verbose g)
    = inl e.
Proof.
  intros Hk Hvars Hkept.
  assert (Hfirst : first_inferred (kept_names vars) = Some EmptyString).
  { rewrite Hkept. simpl. unfold _inspect_varname_prefix, py_in, prefix_before.
    rewrite <- (append_nil ("/input_symbol_modality" +:+ tail)).
    by rewrite (index_marker_append "input_symbol_modality" EmptyString tail
                  eq_refl eq_refl). }
  split; [done|]. split.
  - intros index g0 model_name Hr.
    pose proof (load_model_not_truthy dataset index model_dir g0 vars Hvars)
      as H.
    rewrite Hfirst, Hr in H. by apply H.
  - rewrite model_fn_ensemble_unfold. simpl.
    destruct (load_models_not_truthy dataset model_dirs 0 [] g k model_dir
                vars Hk Hvars) as [e ->]; [by rewrite Hfirst|].
    by exists e.
Qed.

(** X21: nothing is rolled back: once the first checkpoint has been
    loaded, each of its kept variables stays declared in the graph the
    build leaves, with the value loaded for it, also when a later
    checkpoint makes the build raise. *)
Theorem model_fn_ensemble_no_rollback (model_dir : string)
    (rest : list string) (dataset : Dataset)
    (weight_scheme inference_options : pyobj) (verbose : bool) (g : Graph)
    (model : pyobj) (vars : list (string * pyobj)) (var_name : string) :
  fst (load_model GlobalNames ext dataset 0 model_dir g) = inr model ->
  list_variables ext model_dir = inr vars ->
  In var_name (kept_names vars) ->
  exists var,
    load_variable ext model_dir var_name = inr var /\
    variables (snd (ensemble (model_dir :: rest) dataset weight_scheme
                             inference_options verbose g))
      !! scoped_name (scope_at 0) var_name
    = Some (ndarray_shape ext var, var).
Proof.
  intros Hm Hvars Hin.
  destruct (load_model_declares_all GlobalNames ext dataset 0 model_dir g
              model vars var_name Hm Hvars Hin) as (var & Hload & Hvar).
  exists var. split; [done|].
  rewrite model_fn_ensemble_unfold. cbn [snd]. rewrite load_models_cons, Hm.
  by apply load_models_keeps.
Qed.

End EnsembleMore.

(** A variable of the enclosing graph outlives a build over "dirA". *)
Lemma model_fn_ensemble_frame_witness :
  let g := {| collections := ∅;
              variables := {[ "scopeA/decoder/bias" := (PyTuple [], PyObj 40) ]} |} in
  variables (snd (model_fn_ensemble sample_names sample_ext ["dirA"]
                    sample_dataset PyNone PyNone true g))
    !! "scopeA/decoder/bias"
  = Some (PyTuple [], PyObj 40).
Proof.
  intros g.
  apply (proj1 (model_fn_ensemble_frame sample_names sample_ext ["dirA"]
                  sample_dataset PyNone PyNone true g)).
  reflexivity.
Defined.

(** The two sample checkpoints give two models, in order. *)
Lemma model_fn_ensemble_returns_witness :
  exists models,
    Forall2 (reloaded_model sample_ext sample_dataset) ["dirA"; "dirB"]
            models /\
    EnsembleModel_build sample_ext PyNone PyNone (input_fields sample_dataset)
                        models (vocab_target sample_dataset)
    = inr (PyDict [("ids", PyList [PyObj 20; PyObj 20])]).
Proof.
  destruct (model_fn_ensemble_returns sample_names sample_ext
              ["dirA"; "dirB"] sample_dataset PyNone PyNone true empty_graph
              {| predictions := PyDict [("ids", PyList [PyObj 20; PyObj 20])];
                 loss := PyNone; train_op := PyNone;
                 training_chief_hooks := PyTuple [];
                 training_hooks := PyTuple [] |} eq_refl)
    as (models & Hmodels & Hbuild & _).
  exists models. split; [exact Hmodels|exact Hbuild].
Defined.

Lemma model_fn_ensemble_not_repeatable_witness :
  let run := model_fn_ensemble sample_names sample_ext ["dirA"; "dirB"]
               sample_dataset PyNone PyNone true in
  fst (run (snd (run empty_graph)))
  = inl (ValueError "Variable already exists, disallowed.").
Proof.
  intros run.
  pose proof (model_fn_ensemble_not_repeatable sample_names sample_ext
                ["dirA"; "dirB"] sample_dataset PyNone PyNone true empty_graph
                {| predictions := PyDict [("ids", PyList [PyObj 20; PyObj 20])];
                   loss := PyNone; train_op := PyNone;
                   training_chief_hooks := PyTuple [];
                   training_hooks := PyTuple [] |}
                ltac:(discriminate) eq_refl) as H.
  cbv zeta in H. subst run. cbv beta. by rewrite H.
Defined.

(** The first variable sits at the root scope; the second would have
    named the model "scopeA". *)
Lemma ensemble_empty_model_name_witness :
  fst (load_model sample_names sample_ext_rootscope sample_dataset 0 "dir"
         empty_graph)
  = inl (AssertionError "Fail to fetch model name") /\
  exists e,
    fst (model_fn_ensemble sample_names sample_ext_rootscope ["dir"]
           sample_dataset PyNone PyNone true empty_graph) = inl e.
Proof.
  destruct (ensemble_empty_model_name sample_names sample_ext_rootscope
              ["dir"] sample_dataset PyNone PyNone true empty_graph
              0 "dir" _ "/weights" ["scopeA/input_symbol_modality/weights"]
              eq_refl eq_refl eq_refl) as (_ & Hassert & Habort).
  split; [|exact Habort].
  apply (Hassert 0 empty_graph (Some EmptyString)). reflexivity.
Defined.

(** The build over "dirA" and "dirC" raises at "dirC"; the step counter
    of "dirA" is declared all the same. *)
Lemma model_fn_ensemble_no_rollback_witness :
  let run := model_fn_ensemble sample_names sample_ext ["dirA"; "dirC"]
               sample_dataset PyNone PyNone true empty_graph in
  fst run = inl (AssertionError "Fail to fetch model name") /\
  exists var,
    variables (snd run) !! "ensemble0/global_step" = Some (PyTuple [], var).
Proof.
  intros run. split; [reflexivity|].
  destruct (model_fn_ensemble_no_rollback sample_names sample_ext "dirA"
              ["dirC"] sample_dataset PyNone PyNone true empty_graph
              (PyObj 20) _ "global_step" eq_refl eq_refl)
    as (var & _ & Hvar).
  { left. reflexivity. }
  exists var. exact Hvar.
Defined.
